(** * Lighthouse aggregation engine of browser-tools-server

    A shallow embedding of
      - browser-tools-server/lighthouse/pwa.ts
      - browser-tools-server/lighthouse/comprehensive-analysis.ts
      - the session endpoints of the HTTP server
    together with the properties of the audit normalisation, the weighted
    score, the rule tables, the ranking and the session life cycle.

    JavaScript numbers are IEEE 754 binary64 values.  They are modelled by
    [spec_float] with the operations of [SpecFloat] at precision 53 and
    maximal exponent 1024, so that rounding of every product and sum is the
    one the program performs. *)

From stdpp Require Import gmap strings.
From Stdlib Require Import ZArith List Lia Bool Permutation Sorted.
From Stdlib Require Import QArith Qround Qabs Ascii DecimalString SpecFloat.
Import ListNotations.

Local Open Scope Z_scope.

(* ===================================================================== *)
(** ** JavaScript numbers *)
(* ===================================================================== *)

Module JS.

Abbreviation number := spec_float.

Definition prec : Z := 53.
Definition emax : Z := 1024.

(** An integer literal. *)
Definition of_Z (z : Z) : number := binary_normalize prec emax z 0 false.

(** A decimal literal [n/d] (0.3 is [lit 3 10]): the double nearest to
    the quotient, which is what correctly rounded division returns. *)
Definition lit (n d : Z) : number := SFdiv prec emax (of_Z n) (of_Z d).

Definition add : number -> number -> number := SFadd prec emax.
Definition mul : number -> number -> number := SFmul prec emax.

(** [a === b] on numbers, [a < b], [a <= b], [a > b], [a >= b]. *)
Definition strict_eq (a b : number) : bool := SFeqb a b.
Definition lt (a b : number) : bool := SFltb a b.
Definition le (a b : number) : bool := SFleb a b.
Definition gt (a b : number) : bool := SFltb b a.
Definition ge (a b : number) : bool := SFleb b a.

(** ToBoolean on a number: 0, -0 and NaN are falsy. *)
Definition truthy (x : number) : bool :=
  match x with
  | S754_zero _ | S754_nan => false
  | _ => true
  end.

(** [x || 0]. *)
Definition or_zero (x : number) : number := if truthy x then x else of_Z 0.

(** The floor of [x + 1/2] for [x = (-1)^s * m * 2^e] with [e < 0]. *)
Definition round_half_up (s : bool) (m : positive) (e : Z) : Z :=
  Z.shiftr (cond_Zopp s (Z.pos m) + Z.shiftl 1 (- e - 1)) (- e).

(** [Math.round]: the integer closest to [x], ties towards +infinity, that
    is the floor of [x + 1/2] taken exactly.  NaN, the infinities and both
    zeros are returned unchanged, and a result of zero keeps the sign of
    [x]. *)
Definition Math_round (x : number) : number :=
  match x with
  | S754_finite s m e =>
      if 0 <=? e then x
      else
        let n := round_half_up s m e in
        if n =? 0 then S754_zero s else of_Z n
  | _ => x
  end.

(** [Array.prototype.sort] with a comparator.  The language requires the
    sort to be stable; for a consistent comparator the result is then
    unique, and it is the one of this insertion sort: an element moves
    past exactly those elements the comparator puts strictly before it. *)
Section Sort.
Context {A : Type} (cmp : A -> A -> Z).

Fixpoint insert (x : A) (l : list A) : list A :=
  match l with
  | [] => [x]
  | y :: l' => if cmp y x <? 0 then y :: insert x l' else x :: y :: l'
  end.

Definition sort (l : list A) : list A := fold_right insert [] l.
End Sort.

(** [Array.prototype.slice(0, n)]. *)
Definition slice0 {A : Type} (n : nat) (l : list A) : list A := firstn n l.

(** [if (c) l.push(x)]. *)
Definition push_if {A : Type} (c : bool) (x : A) (l : list A) : list A :=
  if c then l ++ [x] else l.

(** [Array.prototype.some]. *)
Definition some {A : Type} (f : A -> bool) (l : list A) : bool := existsb f l.

(** [String.prototype.toUpperCase] on ASCII text. *)
Definition upper_ascii (c : ascii) : ascii :=
  let n := nat_of_ascii c in
  if (Nat.leb 97 n && Nat.leb n 122)%bool then ascii_of_nat (n - 32) else c.

Fixpoint toUpperCase (s : string) : string :=
  match s with
  | EmptyString => EmptyString
  | String c s' => String (upper_ascii c) (toUpperCase s')
  end.

(** Template interpolation of a non-negative integer. *)
Definition show_nat (n : nat) : string :=
  NilEmpty.string_of_uint (Nat.to_uint n).

(** The settled state of a promise. *)
Inductive Outcome (A : Type) : Type :=
| Resolved (value : A)
| Rejected (message : string).
Arguments Resolved {A} value.
Arguments Rejected {A} message.

End JS.

Import JS.

(* ===================================================================== *)
(** ** Severity tiers *)
(* ===================================================================== *)

Inductive Severity : Type := critical | serious | moderate | minor.

Definition Severity_eqb (a b : Severity) : bool :=
  match a, b with
  | critical, critical | serious, serious
  | moderate, moderate | minor, minor => true
  | _, _ => false
  end.

Definition severity_text (s : Severity) : string :=
  match s with
  | critical => "critical"
  | serious => "serious"
  | moderate => "moderate"
  | minor => "minor"
  end.

(** [audit_counts], shared by the five report shapes. *)
Record AuditCounts : Type := mkAuditCounts {
  failed : nat;
  passed : nat;
  manual : nat;
  informative : nat;
  not_applicable : nat
}.

(* ===================================================================== *)
(** ** pwa.ts *)
(* ===================================================================== *)

Module PWA.

Record PWAInstallability : Type := mkInstallability {
  is_installable : bool;
  has_manifest : bool;
  has_service_worker : bool;
  has_icons : bool;
  installability_issues : list string
}.

Record PWAIssue : Type := mkIssue {
  id : string;
  title : string;
  description : string;
  score : option number;
  severity : Severity
}.

Record PWAReportContent : Type := mkContent {
  content_score : number;
  audit_counts : AuditCounts;
  installability : PWAInstallability;
  offline_support : bool;
  fast_reliable : bool;
  optimized : bool;
  issues : list PWAIssue;
  prioritized_recommendations : option (list string)
}.

Record AIOptimizedPWAReport : Type := mkReport {
  category : string;
  content : PWAReportContent
}.

(** The part of a Lighthouse result the adapter reads. *)
Record Audit : Type := mkAudit {
  audit_title : string;
  audit_description : string;
  audit_score : option number;
  scoreDisplayMode : string
}.

Record AuditRef : Type := mkRef { ref_id : string }.

Record Category : Type := mkCategory {
  category_score : option number;
  auditRefs : list AuditRef
}.

Record LighthouseResult : Type := mkResult {
  categories : gmap string Category;
  audits : gmap string Audit
}.

(** [audit?.score === 1] and [audit && audit.score !== 1]. *)
Definition score_is (n : Z) (s : option number) : bool :=
  match s with
  | Some x => JS.strict_eq x (of_Z n)
  | None => false
  end.

Definition scores_one (a : option Audit) : bool :=
  match a with
  | Some au => score_is 1 (audit_score au)
  | None => false
  end.

Definition present_not_one (a : option Audit) : bool :=
  match a with
  | Some au => negb (score_is 1 (audit_score au))
  | None => false
  end.

Definition analyze_installability (r : LighthouseResult) : PWAInstallability :=
  let manifestAudit := audits r !! "installable-manifest" in
  let serviceWorkerAudit := audits r !! "service-worker" in
  let iconsAudit := audits r !! "apple-touch-icon" in
  let splashScreenAudit := audits r !! "splash-screen" in
  let themedOmniboxAudit := audits r !! "themed-omnibox" in
  let has_m := scores_one manifestAudit in
  let has_sw := scores_one serviceWorkerAudit in
  let has_i := scores_one iconsAudit in
  let l := [] in
  let l := push_if (negb has_m)
             "Missing or invalid web app manifest (manifest.json)" l in
  let l := push_if (negb has_sw)
             "No service worker registered (required for offline support)" l in
  let l := push_if (negb has_i)
             "Missing app icons (required for installation)" l in
  let l := push_if (present_not_one splashScreenAudit)
             "Splash screen configuration incomplete" l in
  let l := push_if (present_not_one themedOmniboxAudit)
             "Themed omnibox (theme-color) not configured" l in
  mkInstallability (has_m && has_sw) has_m has_sw has_i l.

(** Severity of a failed audit, from its score. *)
Definition severity_of_score (s : option number) : Severity :=
  if score_is 0 s then critical
  else
    match s with
    | Some x =>
        if JS.le x (lit 1 2) then serious
        else if JS.gt x (lit 7 10) then minor
        else moderate
    | None => moderate
    end.

(** The variables the loop over [auditRefs] updates. *)
Record LoopState : Type := mkLoop {
  l_issues : list PWAIssue;
  failedCount : nat;
  passedCount : nat;
  manualCount : nat;
  informativeCount : nat;
  notApplicableCount : nat
}.

Definition loop_init : LoopState := mkLoop [] 0 0 0 0 0.

Definition loop_body (r : LighthouseResult) (st : LoopState) (ref : AuditRef)
  : LoopState :=
  match audits r !! ref_id ref with
  | None => st
  | Some audit =>
      let '(mkLoop iss f p m i na) := st in
      if String.eqb (scoreDisplayMode audit) "manual" then
        mkLoop iss f p (S m) i na
      else if String.eqb (scoreDisplayMode audit) "informative" then
        mkLoop iss f p m (S i) na
      else if String.eqb (scoreDisplayMode audit) "notApplicable" then
        mkLoop iss f p m i (S na)
      else if score_is 1 (audit_score audit) then
        mkLoop iss f (S p) m i na
      else
        let sev := severity_of_score (audit_score audit) in
        mkLoop (iss ++ [mkIssue (ref_id ref) (audit_title audit)
                          (audit_description audit) (audit_score audit) sev])
               (S f) p m i na
  end.

Definition run_loop (r : LighthouseResult) (refs : list AuditRef) : LoopState :=
  fold_left (loop_body r) refs loop_init.

Definition severityOrder (s : Severity) : Z :=
  match s with
  | critical => 0
  | serious => 1
  | moderate => 2
  | minor => 3
  end.

Definition by_severity (a b : PWAIssue) : Z :=
  severityOrder (severity a) - severityOrder (severity b).

Definition recommendation (i : PWAIssue) : string :=
  toUpperCase (severity_text (severity i)) +:+ ": " +:+ title i.

(** [runPWAAudit], given the settled result of [runLighthouseAudit].
    [issues.sort] sorts the array in place, so the array stored in the
    report is the sorted one. *)
Definition runPWAAudit (engine : Outcome LighthouseResult)
  : Outcome AIOptimizedPWAReport :=
  match engine with
  | Rejected msg => Rejected ("PWA audit failed: " +:+ msg)
  | Resolved r =>
      match categories r !! "pwa" with
      | None =>
          Rejected ("PWA audit failed: " +:+
                    "PWA category not found in Lighthouse result")
      | Some pwaCategory =>
          let score :=
            Math_round (mul (default (of_Z 0) (category_score pwaCategory))
                            (of_Z 100)) in
          let inst := analyze_installability r in
          let st := run_loop r (auditRefs pwaCategory) in
          let issues := JS.sort by_severity (l_issues st) in
          let recs := slice0 5 (map recommendation issues) in
          let offline := scores_one (audits r !! "service-worker") in
          Resolved
            (mkReport "pwa"
               (mkContent score
                  (mkAuditCounts (failedCount st) (passedCount st)
                     (manualCount st) (informativeCount st)
                     (notApplicableCount st))
                  inst offline
                  (JS.ge score (of_Z 70)) (JS.ge score (of_Z 90))
                  issues (Some recs)))
      end
  end.

End PWA.

(* ===================================================================== *)
(** ** comprehensive-analysis.ts *)
(* ===================================================================== *)

Module Analysis.

(** Modelled from the spec: the element types of the lists the analysis
    never reads (metrics, diagnostics, incomplete, manual_checks) are
    declared in performance.ts and accessibility.ts, which are absent;
    an entry is kept as its identifier. *)
Record Entry : Type := mkEntry { entry_id : string }.

(** Modelled from the spec: PerformanceReportContent is declared in the
    absent performance.ts; the records have the fields the analysis reads
    and the ones [createEmptyPerformanceReport] writes. *)
Record Opportunity : Type := mkOpportunity {
  opp_id : string;
  opp_impact : Severity
}.

Record CoreWebVitals : Type := mkVitals {
  CLS : option number;
  LCP : option number
}.

Record PerformanceReportContent : Type := mkPerformance {
  perf_score : number;
  perf_audit_counts : AuditCounts;
  core_web_vitals : CoreWebVitals;
  metrics : list Entry;
  opportunities : list Opportunity;
  diagnostics : list Entry
}.

(** Modelled from the spec: AccessibilityReportContent is declared in the
    absent accessibility.ts. *)
Record Violation : Type := mkViolation {
  viol_id : string;
  viol_impact : Severity
}.

Record AccessibilityReportContent : Type := mkAccessibility {
  a11y_score : number;
  a11y_audit_counts : AuditCounts;
  violations : list Violation;
  incomplete : list Entry;
  manual_checks : list Entry
}.

(** Modelled from the spec: SEOReportContent is declared in the absent
    seo.ts. *)
Record SEOIssue : Type := mkSEOIssue {
  seo_issue_id : string;
  seo_issue_category : string;
  seo_issue_impact : Severity
}.

Record SEOCategory : Type := mkSEOCategory { issues_count : number }.

Record SEOCategories : Type := mkSEOCategories { mobile : option SEOCategory }.

Record SEOReportContent : Type := mkSEO {
  seo_score : number;
  seo_audit_counts : AuditCounts;
  seo_issues : list SEOIssue;
  seo_categories : SEOCategories
}.

(** Modelled from the spec: BestPracticesReportContent is declared in the
    absent best-practices.ts. *)
Record BestPracticesIssue : Type := mkBPIssue {
  bp_issue_id : string;
  bp_issue_severity : Severity
}.

Record BestPracticesReportContent : Type := mkBestPractices {
  bp_score : number;
  bp_audit_counts : AuditCounts;
  bp_issues : list BestPracticesIssue
}.

Record CategoryScores : Type := mkScores {
  performance : number;
  accessibility : number;
  seo : number;
  best_practices : number;
  pwa : number
}.

Record CrossCategoryInsight : Type := mkInsight {
  insight_id : string;
  insight_title : string;
  insight_description : string;
  affected_categories : list string;
  insight_impact : Severity;
  recommendation : string
}.

Inductive Effort : Type := low | medium | high.

Record PrioritizedActionItem : Type := mkAction {
  rank : nat;
  title : string;
  description : string;
  categories : list string;
  impact : Severity;
  effort : Effort;
  roi_score : Z;
  action_steps : list string
}.

Record QuickWin : Type := mkQuickWin {
  qw_title : string;
  qw_category : string;
  qw_impact : string;
  estimated_time : string;
  action : string
}.

Record Summary : Type := mkSummary {
  total_issues : nat;
  critical_issues : nat;
  total_audits : nat;
  passed_audits : nat;
  failed_audits : nat
}.

Record ComprehensiveSiteAnalysis : Type := mkAnalysis {
  url : string;
  analyzed_at : string;
  overall_score : number;
  category_scores : CategoryScores;
  r_performance : PerformanceReportContent;
  r_accessibility : AccessibilityReportContent;
  r_seo : SEOReportContent;
  r_best_practices : BestPracticesReportContent;
  r_pwa : PWA.PWAReportContent;
  cross_category_insights : list CrossCategoryInsight;
  prioritized_action_items : list PrioritizedActionItem;
  quick_wins : list QuickWin;
  summary : Summary
}.

(** *** The weighted overall score *)

Definition w_performance : number := lit 3 10.
Definition w_accessibility : number := lit 25 100.
Definition w_seo : number := lit 25 100.
Definition w_best_practices : number := lit 15 100.
Definition w_pwa : number := lit 5 100.

Definition weighted_sum (cs : CategoryScores) : number :=
  add (add (add (add (mul (performance cs) w_performance)
                     (mul (accessibility cs) w_accessibility))
                (mul (seo cs) w_seo))
           (mul (best_practices cs) w_best_practices))
      (mul (pwa cs) w_pwa).

Definition compute_overall_score (cs : CategoryScores) : number :=
  Math_round (weighted_sum cs).

(** *** calculateSummary *)

Definition count_critical {A : Type} (sev : A -> Severity) (l : list A) : nat :=
  length (List.filter (fun x => Severity_eqb (sev x) critical) l).

Definition calculateSummary
    (p : PerformanceReportContent) (a : AccessibilityReportContent)
    (s : SEOReportContent) (b : BestPracticesReportContent)
    (w : PWA.PWAReportContent) : Summary :=
  let total_audits :=
    (failed (perf_audit_counts p) + passed (perf_audit_counts p) +
     failed (a11y_audit_counts a) + passed (a11y_audit_counts a) +
     failed (seo_audit_counts s) + passed (seo_audit_counts s) +
     failed (bp_audit_counts b) + passed (bp_audit_counts b) +
     failed (PWA.audit_counts w) + passed (PWA.audit_counts w))%nat in
  let passed_audits :=
    (passed (perf_audit_counts p) + passed (a11y_audit_counts a) +
     passed (seo_audit_counts s) + passed (bp_audit_counts b) +
     passed (PWA.audit_counts w))%nat in
  let failed_audits :=
    (failed (perf_audit_counts p) + failed (a11y_audit_counts a) +
     failed (seo_audit_counts s) + failed (bp_audit_counts b) +
     failed (PWA.audit_counts w))%nat in
  let total_issues :=
    (length (opportunities p) + length (violations a) +
     length (seo_issues s) + length (bp_issues b) +
     length (PWA.issues w))%nat in
  let critical_issues :=
    (count_critical opp_impact (opportunities p) +
     count_critical viol_impact (violations a) +
     count_critical seo_issue_impact (seo_issues s) +
     count_critical bp_issue_severity (bp_issues b) +
     count_critical PWA.severity (PWA.issues w))%nat in
  mkSummary total_issues critical_issues total_audits passed_audits
    failed_audits.

(** *** generateCrossCategoryInsights *)

Definition has_opportunity (i : string) (p : PerformanceReportContent) : bool :=
  JS.some (fun o => String.eqb (opp_id o) i) (opportunities p).

Definition has_violation (i : string) (a : AccessibilityReportContent) : bool :=
  JS.some (fun v => String.eqb (viol_id v) i) (violations a).

Definition has_seo_issue (i : string) (s : SEOReportContent) : bool :=
  JS.some (fun x => String.eqb (seo_issue_id x) i) (seo_issues s).

Definition has_seo_category (c : string) (s : SEOReportContent) : bool :=
  JS.some (fun x => String.eqb (seo_issue_category x) c) (seo_issues s).

(** [v && v > n] for an optional metric. *)
Definition metric_above (v : option number) (n : number) : bool :=
  match v with
  | Some x => truthy x && JS.gt x n
  | None => false
  end.

(** [seo.categories?.mobile?.issues_count > 0]. *)
Definition mobile_issues_positive (s : SEOReportContent) : bool :=
  match mobile (seo_categories s) with
  | Some c => JS.gt (issues_count c) (of_Z 0)
  | None => false
  end.

Definition insight_large_images : CrossCategoryInsight :=
  mkInsight "large-images-multi-impact"
    "Image optimization affects multiple areas"
    "Unoptimized images are impacting page load speed, accessibility (missing alt text), and potentially SEO rankings."
    ["performance"; "accessibility"; "seo"]
    serious
    "Compress images, add descriptive alt text, and use next-gen formats (WebP, AVIF) to improve performance, accessibility, and SEO simultaneously.".

Definition insight_mobile : CrossCategoryInsight :=
  mkInsight "mobile-optimization-needed"
    "Mobile experience needs improvement"
    "Layout shifts (CLS) and mobile usability issues are impacting Core Web Vitals, SEO rankings, and user experience on mobile devices."
    ["performance"; "seo"; "accessibility"]
    serious
    "Fix layout shifts by reserving space for images/ads, optimize viewport settings, and ensure touch targets are appropriately sized.".

Definition insight_pwa : CrossCategoryInsight :=
  mkInsight "pwa-capabilities-missing"
    "PWA features could improve performance and engagement"
    "Adding PWA capabilities (service worker, manifest) would enable offline support, faster repeat visits, and installability."
    ["pwa"; "performance"]
    moderate
    "Implement a service worker for caching, create a web app manifest, and add app icons to enable PWA installation.".

Definition insight_https : CrossCategoryInsight :=
  mkInsight "https-security-seo"
    "HTTPS migration needed for security and SEO"
    "Non-HTTPS pages are flagged by browsers as insecure and may be penalized in search rankings."
    ["best_practices"; "seo"]
    critical
    "Migrate entire site to HTTPS, update internal links, and implement proper redirects from HTTP to HTTPS.".

Definition insight_semantic : CrossCategoryInsight :=
  mkInsight "semantic-html-structure"
    "HTML structure impacts both accessibility and SEO"
    "Proper heading hierarchy and semantic HTML help screen readers and search engines understand page content."
    ["accessibility"; "seo"]
    moderate
    "Use proper heading hierarchy (h1→h2→h3), semantic HTML5 elements, and descriptive page titles.".

Definition cond_large_images (p : PerformanceReportContent)
    (a : AccessibilityReportContent) : bool :=
  has_opportunity "uses-optimized-images" p && has_violation "image-alt" a.

Definition cond_mobile (p : PerformanceReportContent) (s : SEOReportContent)
  : bool :=
  metric_above (CLS (core_web_vitals p)) (lit 1 10) && mobile_issues_positive s.

Definition cond_pwa (p : PerformanceReportContent) (w : PWA.PWAReportContent)
  : bool :=
  negb (PWA.is_installable (PWA.installability w))
  && JS.lt (perf_score p) (of_Z 70)
  && negb (PWA.offline_support w).

Definition cond_https (b : BestPracticesReportContent) (s : SEOReportContent)
  : bool :=
  JS.some (fun i => String.eqb (bp_issue_id i) "is-on-https") (bp_issues b)
  && has_seo_category "crawlability" s.

Definition cond_semantic (a : AccessibilityReportContent)
    (s : SEOReportContent) : bool :=
  JS.some (fun v => existsb (String.eqb (viol_id v))
                      ["heading-order"; "document-title"]) (violations a)
  && has_seo_category "content" s.

Definition generateCrossCategoryInsights
    (p : PerformanceReportContent) (a : AccessibilityReportContent)
    (s : SEOReportContent) (b : BestPracticesReportContent)
    (w : PWA.PWAReportContent) : list CrossCategoryInsight :=
  let insights := [] in
  let insights := push_if (cond_large_images p a) insight_large_images insights in
  let insights := push_if (cond_mobile p s) insight_mobile insights in
  let insights := push_if (cond_pwa p w) insight_pwa insights in
  let insights := push_if (cond_https b s) insight_https insights in
  let insights := push_if (cond_semantic a s) insight_semantic insights in
  insights.

(** *** generatePrioritizedActionItems *)

Definition action_https (r : nat) : PrioritizedActionItem :=
  mkAction r "Migrate to HTTPS"
    "Implement SSL/TLS encryption for all pages to secure user data and meet security best practices."
    ["best_practices"; "seo"] critical medium 95
    ["1. Obtain SSL certificate (Let's Encrypt is free)";
     "2. Configure server to use HTTPS";
     "3. Update all internal links to use HTTPS";
     "4. Implement 301 redirects from HTTP to HTTPS";
     "5. Update sitemap and robots.txt"].

Definition action_lcp (r : nat) : PrioritizedActionItem :=
  mkAction r "Optimize Largest Contentful Paint (LCP)"
    "Improve page load speed by optimizing the largest visible element's load time (currently exceeds 2.5s threshold)."
    ["performance"; "seo"] serious medium 90
    ["1. Optimize and compress the LCP element (image/text block)";
     "2. Use CDN for faster content delivery";
     "3. Preload critical resources";
     "4. Remove render-blocking JavaScript";
     "5. Consider lazy loading non-critical content"].

Definition action_a11y (r n : nat) : PrioritizedActionItem :=
  mkAction r ("Fix " +:+ show_nat n +:+ " critical accessibility issues")
    "Address WCAG violations that prevent users with disabilities from accessing content."
    ["accessibility"] critical low 85
    ["1. Add alt text to all images";
     "2. Ensure proper color contrast (4.5:1 minimum)";
     "3. Add labels to form inputs";
     "4. Ensure keyboard navigation works";
     "5. Use semantic HTML elements"].

Definition action_meta (r : nat) : PrioritizedActionItem :=
  mkAction r "Add meta descriptions"
    "Create compelling meta descriptions to improve click-through rates from search results."
    ["seo"] moderate low 80
    ["1. Write unique, descriptive meta descriptions (150-160 chars)";
     "2. Include target keywords naturally";
     "3. Add compelling call-to-action";
     "4. Ensure each page has a unique meta description"].

Definition action_pwa (r : nat) : PrioritizedActionItem :=
  mkAction r "Implement Progressive Web App features"
    "Add PWA capabilities to enable offline support, faster load times, and home screen installation."
    ["pwa"; "performance"] moderate high 70
    ["1. Create web app manifest (manifest.json)";
     "2. Add app icons (multiple sizes)";
     "3. Implement service worker for caching";
     "4. Test offline functionality";
     "5. Configure theme color and splash screen"].

Definition gate_https (b : BestPracticesReportContent) : bool :=
  JS.some (fun i => String.eqb (bp_issue_id i) "is-on-https"
                    && Severity_eqb (bp_issue_severity i) critical)
          (bp_issues b).

Definition gate_lcp (p : PerformanceReportContent) : bool :=
  metric_above (LCP (core_web_vitals p)) (of_Z 2500).

Definition criticalA11yIssues (a : AccessibilityReportContent) : list Violation :=
  List.filter (fun v => Severity_eqb (viol_impact v) critical) (violations a).

Definition gate_pwa (w : PWA.PWAReportContent) : bool :=
  negb (PWA.is_installable (PWA.installability w))
  && JS.lt (PWA.content_score w) (of_Z 50).

(** The candidates, in the order they are pushed. *)
Definition action_candidates
    (p : PerformanceReportContent) (a : AccessibilityReportContent)
    (s : SEOReportContent) (b : BestPracticesReportContent)
    (w : PWA.PWAReportContent) : list PrioritizedActionItem :=
  let action_items := [] in
  let action_items := push_if (gate_https b) (action_https 1) action_items in
  let action_items :=
    push_if (gate_lcp p) (action_lcp (length action_items + 1)) action_items in
  let crit := criticalA11yIssues a in
  let action_items :=
    push_if (Nat.ltb 0 (length crit))
            (action_a11y (length action_items + 1) (length crit))
            action_items in
  let action_items :=
    push_if (has_seo_issue "meta-description" s)
            (action_meta (length action_items + 1)) action_items in
  let action_items :=
    push_if (gate_pwa w) (action_pwa (length action_items + 1)) action_items in
  action_items.

Definition by_roi (a b : PrioritizedActionItem) : Z := roi_score b - roi_score a.

Definition set_rank (r : nat) (x : PrioritizedActionItem) : PrioritizedActionItem :=
  mkAction r (title x) (description x) (categories x) (impact x) (effort x)
    (roi_score x) (action_steps x).

(** Sort by ROI, renumber, keep the first ten. *)
Definition rank_and_truncate (action_items : list PrioritizedActionItem)
  : list PrioritizedActionItem :=
  let sorted := JS.sort by_roi action_items in
  let ranked := imap (fun index item => set_rank (index + 1) item) sorted in
  slice0 10 ranked.

Definition generatePrioritizedActionItems
    (p : PerformanceReportContent) (a : AccessibilityReportContent)
    (s : SEOReportContent) (b : BestPracticesReportContent)
    (w : PWA.PWAReportContent)
    (cross_category_insights : list CrossCategoryInsight)
  : list PrioritizedActionItem :=
  rank_and_truncate (action_candidates p a s b w).

(** *** generateQuickWins *)

(** The double-quote character of the HTML snippets. *)
Definition dq : string := String (ascii_of_nat 34) EmptyString.

Definition qw_meta_description : QuickWin :=
  mkQuickWin "Add meta description" "seo"
    "Improves click-through rate from search results" "5 minutes"
    ("Add <meta name=" +:+ dq +:+ "description" +:+ dq +:+ " content=" +:+ dq
     +:+ "Your page description here" +:+ dq +:+ "> to <head>").

Definition qw_image_alt : QuickWin :=
  mkQuickWin "Add alt text to images" "accessibility"
    "Improves accessibility for screen readers and SEO" "10 minutes"
    ("Add alt=" +:+ dq +:+ "descriptive text" +:+ dq
     +:+ " attribute to all <img> tags").

Definition qw_text_compression : QuickWin :=
  mkQuickWin "Enable Gzip/Brotli compression" "performance"
    "Reduces file transfer size by 70-90%" "15 minutes"
    "Configure server to enable Gzip or Brotli compression for text files".

Definition qw_viewport : QuickWin :=
  mkQuickWin "Add viewport meta tag" "seo"
    "Improves mobile rendering and SEO" "2 minutes"
    ("Add <meta name=" +:+ dq +:+ "viewport" +:+ dq +:+ " content=" +:+ dq
     +:+ "width=device-width, initial-scale=1" +:+ dq +:+ "> to <head>").

Definition qw_document_title : QuickWin :=
  mkQuickWin "Add descriptive page title" "seo"
    "Improves SEO and browser tab identification" "5 minutes"
    "Add <title>Your Page Title - Site Name</title> to <head> section".

Definition qw_color_contrast : QuickWin :=
  mkQuickWin "Fix color contrast issues" "accessibility"
    "Improves readability for users with vision impairments" "20 minutes"
    "Adjust text and background colors to meet 4.5:1 contrast ratio".

Definition generateQuickWins
    (p : PerformanceReportContent) (a : AccessibilityReportContent)
    (s : SEOReportContent) (b : BestPracticesReportContent)
    (w : PWA.PWAReportContent) : list QuickWin :=
  let quick_wins := [] in
  let quick_wins :=
    push_if (has_seo_issue "meta-description" s) qw_meta_description quick_wins in
  let quick_wins :=
    push_if (has_violation "image-alt" a) qw_image_alt quick_wins in
  let quick_wins :=
    push_if (has_opportunity "uses-text-compression" p) qw_text_compression
      quick_wins in
  let quick_wins :=
    push_if (has_seo_issue "viewport" s) qw_viewport quick_wins in
  let quick_wins :=
    push_if (has_seo_issue "document-title" s) qw_document_title quick_wins in
  let quick_wins :=
    push_if (has_violation "color-contrast" a) qw_color_contrast quick_wins in
  slice0 6 quick_wins.

(** *** Empty reports *)

Definition zero_counts : AuditCounts := mkAuditCounts 0 0 0 0 0.

Definition createEmptyPerformanceReport : PerformanceReportContent :=
  mkPerformance (of_Z 0) zero_counts (mkVitals None None) [] [] [].

Definition createEmptyAccessibilityReport : AccessibilityReportContent :=
  mkAccessibility (of_Z 0) zero_counts [] [] [].

Definition createEmptySEOReport : SEOReportContent :=
  mkSEO (of_Z 0) zero_counts [] (mkSEOCategories None).

Definition createEmptyBestPracticesReport : BestPracticesReportContent :=
  mkBestPractices (of_Z 0) zero_counts [].

Definition createEmptyPWAReport : PWA.PWAReportContent :=
  PWA.mkContent (of_Z 0) zero_counts
    (PWA.mkInstallability false false false false [])
    false false false [] None.

(** *** runComprehensiveSiteAnalysis *)

(** [promise.catch(err => null)], then [result?.path]: the value the path
    reaches, or nothing when the adapter rejected. *)
Definition caught {A B : Type} (path : A -> B) (o : Outcome A) : option B :=
  match o with
  | Resolved v => Some (path v)
  | Rejected _ => None
  end.

(** [result?.score || 0]: an absent score is replaced by 0 too. *)
Definition score_or_zero {A : Type} (sc : A -> number) (r : option A) : number :=
  match r with
  | Some c => or_zero (sc c)
  | None => of_Z 0
  end.

(** The five adapters have settled; [now] is the time stamp taken when
    the record is built.  For the four adapters whose modules are absent
    the outcome carries the content reached by [?.report?.content]
    ([?.report] for SEO).  No step after the join can throw, so the
    handler that wraps a failure is not reached. *)
Definition runComprehensiveSiteAnalysis (url now : string)
    (performanceResult : Outcome PerformanceReportContent)
    (accessibilityResult : Outcome AccessibilityReportContent)
    (seoResult : Outcome SEOReportContent)
    (bestPracticesResult : Outcome BestPracticesReportContent)
    (pwaResult : Outcome PWA.AIOptimizedPWAReport)
  : Outcome ComprehensiveSiteAnalysis :=
  let pr := caught (fun c => c) performanceResult in
  let ar := caught (fun c => c) accessibilityResult in
  let sr := caught (fun c => c) seoResult in
  let br := caught (fun c => c) bestPracticesResult in
  let wr := caught PWA.content pwaResult in
  let category_scores :=
    mkScores (score_or_zero perf_score pr) (score_or_zero a11y_score ar)
      (score_or_zero seo_score sr) (score_or_zero bp_score br)
      (score_or_zero PWA.content_score wr) in
  let overall_score := compute_overall_score category_scores in
  let performance := default createEmptyPerformanceReport pr in
  let accessibility := default createEmptyAccessibilityReport ar in
  let seo := default createEmptySEOReport sr in
  let best_practices := default createEmptyBestPracticesReport br in
  let pwa := default createEmptyPWAReport wr in
  let summary := calculateSummary performance accessibility seo best_practices pwa in
  let cross_category_insights :=
    generateCrossCategoryInsights performance accessibility seo best_practices pwa in
  let prioritized_action_items :=
    generatePrioritizedActionItems performance accessibility seo best_practices
      pwa cross_category_insights in
  let quick_wins :=
    generateQuickWins performance accessibility seo best_practices pwa in
  Resolved
    (mkAnalysis url now overall_score category_scores performance
       accessibility seo best_practices pwa cross_category_insights
       prioritized_action_items quick_wins summary).

End Analysis.

(* ===================================================================== *)
(** ** The doubles the weighted sum can take *)
(* ===================================================================== *)

(** The weighted sum is evaluated in binary64, and every product and
    partial sum is rounded.  To reason about all 101^5 score vectors the
    partial sums are tabulated: a table maps the exact value of a partial
    sum, counted in twentieths, to the doubles the program can hold for
    it.  Few doubles occur for each exact value, so the tables stay small
    and can be evaluated. *)
Module ScoreTable.

Definition SF_same (x y : number) : bool :=
  match x, y with
  | S754_zero a, S754_zero b => Bool.eqb a b
  | S754_infinity a, S754_infinity b => Bool.eqb a b
  | S754_nan, S754_nan => true
  | S754_finite a m e, S754_finite b n f =>
      Bool.eqb a b && (m =? n)%positive && (e =? f)
  | _, _ => false
  end.

Definition holds (t : gmap Z (list number)) (k : Z) (v : number) : Prop :=
  exists l, t !! k = Some l /\ In v l.

Definition tadd (k : Z) (v : number) (t : gmap Z (list number))
  : gmap Z (list number) :=
  match t !! k with
  | Some l => if existsb (SF_same v) l then t else <[k := v :: l]> t
  | None => <[k := [v]]> t
  end.

Definition tadd_all {A : Type} (f : A -> Z * number) (l : list A)
    (t : gmap Z (list number)) : gmap Z (list number) :=
  fold_left (fun acc x => let y := f x in tadd (fst y) (snd y) acc) l t.

Definition entries (t : gmap Z (list number)) : list (Z * number) :=
  flat_map (fun kl => map (pair (fst kl)) (snd kl)) (map_to_list t).

Definition range101 : list Z := map Z.of_nat (List.seq 0 101).

(** The products [score * weight] for the scores 0..100, each with its
    exact value in twentieths ([numer] is the weight in twentieths). *)
Definition terms (numer : Z) (weight : number) : list (Z * number) :=
  map (fun n => (numer * n, mul (of_Z n) weight)) range101.

Definition plus_term (kv ju : Z * number) : Z * number :=
  (fst kv + fst ju, add (snd kv) (snd ju)).

Definition extend (t : gmap Z (list number)) (ts : list (Z * number))
  : gmap Z (list number) :=
  fold_left (fun acc kv => tadd_all (plus_term kv) ts acc) (entries t) ∅.

Definition stage0 : gmap Z (list number) :=
  tadd_all (fun x => x) (terms 6 Analysis.w_performance) ∅.
Definition stage1 := extend stage0 (terms 5 Analysis.w_accessibility).
Definition stage2 := extend stage1 (terms 5 Analysis.w_seo).
Definition stage3 := extend stage2 (terms 3 Analysis.w_best_practices).

(** The integer a non-negative sum below 2^53 rounds to. *)
Definition rounds_to (x : number) : option Z :=
  match x with
  | S754_zero false => Some 0
  | S754_finite false m e =>
      if 0 <=? e then None else Some (round_half_up false m e)
  | _ => None
  end.

(** [x] rounds to an integer nearest to [k/20]: the one rounding half up
    gives, or the one below it when [k/20] lies exactly half way. *)
Definition nearest_ok (k : Z) (x : number) : bool :=
  match rounds_to x with
  | Some n =>
      (n =? (k + 10) / 20) || ((k mod 20 =? 10) && (n =? (k + 10) / 20 - 1))
  | None => false
  end.

Definition stage4 := extend stage3 (terms 1 Analysis.w_pwa).

Definition final_ok : bool :=
  forallb (fun kv => nearest_ok (fst kv) (snd kv)) (entries stage4).

Definition scores_fixed : bool :=
  forallb (fun n => SF_same (or_zero (of_Z n)) (of_Z n)) range101.

End ScoreTable.

(* ===================================================================== *)
(** ** The specification's reading of the rules *)
(* ===================================================================== *)

Module Spec.

Local Open Scope Q_scope.

(** 0.30 perf + 0.25 a11y + 0.25 seo + 0.15 bp + 0.05 pwa, exactly. *)
Definition exact_weighted (p a s b w : Z) : Q :=
  (30 # 100) * inject_Z p + (25 # 100) * inject_Z a + (25 # 100) * inject_Z s
  + (15 # 100) * inject_Z b + (5 # 100) * inject_Z w.

(** Rounding to the nearest integer, ties away from zero. *)
Definition round_half_away (q : Q) : Z :=
  if Qle_bool 0 q then Qfloor (q + (1 # 2)) else (- Qfloor (- q + (1 # 2)))%Z.

Definition spec_overall_score (p a s b w : Z) : Z :=
  round_half_away (exact_weighted p a s b w).

(** [q] lies exactly half way between two integers. *)
Definition is_tie (q : Q) : Prop := inject_Z (Qfloor q) + (1 # 2) == q.

Local Close Scope Q_scope.

(** The five buckets of [audit_counts], and the bucket of one audit entry:
    display mode manual, informative, not applicable, else a score equal
    to 1, else failed. *)
Inductive Bucket : Type :=
  in_manual | in_informative | in_not_applicable | in_passed | in_failed.

Definition Bucket_eqb (a b : Bucket) : bool :=
  match a, b with
  | in_manual, in_manual | in_informative, in_informative
  | in_not_applicable, in_not_applicable
  | in_passed, in_passed | in_failed, in_failed => true
  | _, _ => false
  end.

Definition classify (a : PWA.Audit) : Bucket :=
  if String.eqb (PWA.scoreDisplayMode a) "manual" then in_manual
  else if String.eqb (PWA.scoreDisplayMode a) "informative" then in_informative
  else if String.eqb (PWA.scoreDisplayMode a) "notApplicable" then in_not_applicable
  else if PWA.score_is 1 (PWA.audit_score a) then in_passed
  else in_failed.

(** The audit entries evaluated for a category: the references that name an
    audit of the result, one entry for each such reference. *)
Definition evaluated (r : PWA.LighthouseResult) (refs : list PWA.AuditRef)
  : list PWA.Audit :=
  omap (fun ref => PWA.audits r !! PWA.ref_id ref) refs.

Definition count_in (b : Bucket) (l : list PWA.Audit) : nat :=
  length (List.filter (fun a => Bucket_eqb (classify a) b) l).

(** What one audit entry adds to the count of bucket [b]. *)
Definition bump (b : Bucket) (a : PWA.Audit) : nat :=
  if Bucket_eqb (classify a) b then 1%nat else 0%nat.

(** A rule table: each rule has a condition, already evaluated on the five
    reports, and a literal output.  The rules that hold emit their output,
    in table order. *)
Definition fire {A : Type} (table : list (bool * A)) : list A :=
  map snd (List.filter fst table).

Definition insight_table
    (p : Analysis.PerformanceReportContent)
    (a : Analysis.AccessibilityReportContent)
    (s : Analysis.SEOReportContent)
    (b : Analysis.BestPracticesReportContent)
    (w : PWA.PWAReportContent) : list (bool * Analysis.CrossCategoryInsight) :=
  [ (Analysis.cond_large_images p a, Analysis.insight_large_images);
    (Analysis.cond_mobile p s, Analysis.insight_mobile);
    (Analysis.cond_pwa p w, Analysis.insight_pwa);
    (Analysis.cond_https b s, Analysis.insight_https);
    (Analysis.cond_semantic a s, Analysis.insight_semantic) ].

Definition quick_win_table
    (p : Analysis.PerformanceReportContent)
    (a : Analysis.AccessibilityReportContent)
    (s : Analysis.SEOReportContent) : list (bool * Analysis.QuickWin) :=
  [ (Analysis.has_seo_issue "meta-description" s, Analysis.qw_meta_description);
    (Analysis.has_violation "image-alt" a, Analysis.qw_image_alt);
    (Analysis.has_opportunity "uses-text-compression" p,
     Analysis.qw_text_compression);
    (Analysis.has_seo_issue "viewport" s, Analysis.qw_viewport);
    (Analysis.has_seo_issue "document-title" s, Analysis.qw_document_title);
    (Analysis.has_violation "color-contrast" a, Analysis.qw_color_contrast) ].

(** [s] is the stable sort of [l] by descending ROI. *)
Definition stable_sorted_by_roi (l s : list Analysis.PrioritizedActionItem)
  : Prop :=
  Permutation l s
  /\ StronglySorted
       (fun x y => Analysis.roi_score y <= Analysis.roi_score x) s
  /\ forall r,
       List.filter (fun x => Analysis.roi_score x =? r) s
       = List.filter (fun x => Analysis.roi_score x =? r) l.

(** An adapter raised. *)
Definition raised {A : Type} (o : Outcome A) : Prop :=
  exists msg, o = Rejected msg.

End Spec.

(* ===================================================================== *)
(** ** Sample inputs *)
(* ===================================================================== *)

Module Examples.

(** Reports that carry a score and nothing else. *)
Definition perf_with_score (n : Z) : Analysis.PerformanceReportContent :=
  Analysis.mkPerformance (of_Z n) Analysis.zero_counts
    (Analysis.mkVitals None None) [] [] [].

Definition a11y_with_score (n : Z) : Analysis.AccessibilityReportContent :=
  Analysis.mkAccessibility (of_Z n) Analysis.zero_counts [] [] [].

Definition seo_with_score (n : Z) : Analysis.SEOReportContent :=
  Analysis.mkSEO (of_Z n) Analysis.zero_counts []
    (Analysis.mkSEOCategories None).

Definition bp_with_score (n : Z) : Analysis.BestPracticesReportContent :=
  Analysis.mkBestPractices (of_Z n) Analysis.zero_counts [].

Definition pwa_with_score (n : Z) : PWA.AIOptimizedPWAReport :=
  PWA.mkReport "pwa"
    (PWA.mkContent (of_Z n) Analysis.zero_counts
       (PWA.mkInstallability false false false false [])
       false false false [] None).

(** A site with unoptimised images, missing alt text and low contrast. *)
Definition image_heavy_performance : Analysis.PerformanceReportContent :=
  Analysis.mkPerformance (of_Z 85) (mkAuditCounts 1 9 0 0 0)
    (Analysis.mkVitals None None) []
    [Analysis.mkOpportunity "uses-optimized-images" serious] [].

Definition image_heavy_accessibility : Analysis.AccessibilityReportContent :=
  Analysis.mkAccessibility (of_Z 70) (mkAuditCounts 2 8 0 0 0)
    [Analysis.mkViolation "image-alt" critical;
     Analysis.mkViolation "color-contrast" serious] [] [].

(** A site served over plain HTTP. *)
Definition plain_http_best_practices : Analysis.BestPracticesReportContent :=
  Analysis.mkBestPractices (of_Z 60) (mkAuditCounts 1 5 0 0 0)
    [Analysis.mkBPIssue "is-on-https" critical].

(** A Lighthouse result with two failed audits, the milder one first, one
    passed audit, a manual and a not applicable one, and a reference to an
    audit the result does not hold. *)
Definition sample_audits : gmap string PWA.Audit :=
  <["installable-manifest" :=
      PWA.mkAudit "Web app manifest" "Manifest is incomplete"
        (Some (lit 6 10)) "numeric"]>
  (<["service-worker" :=
      PWA.mkAudit "Registers a service worker" "No service worker"
        (Some (of_Z 0)) "binary"]>
  (<["viewport" :=
      PWA.mkAudit "Has a viewport tag" "Viewport is set"
        (Some (of_Z 1)) "binary"]>
  (<["pwa-cross-browser" :=
      PWA.mkAudit "Works across browsers" "Check by hand" None "manual"]>
  (<["maskable-icon" :=
      PWA.mkAudit "Maskable icon" "Not applicable here" None "notApplicable"]>
   ∅)))).

Definition sample_category : PWA.Category :=
  PWA.mkCategory (Some (lit 1 2))
    [PWA.mkRef "installable-manifest"; PWA.mkRef "service-worker";
     PWA.mkRef "viewport"; PWA.mkRef "pwa-cross-browser";
     PWA.mkRef "maskable-icon"; PWA.mkRef "not-in-the-result"].

Definition sample_result : PWA.LighthouseResult :=
  PWA.mkResult (<["pwa" := sample_category]> ∅) sample_audits.

(** The report [runPWAAudit] builds from [sample_result]. *)
Definition sample_report : PWA.AIOptimizedPWAReport :=
  PWA.mkReport "pwa"
    (PWA.mkContent (of_Z 50) (mkAuditCounts 2 1 1 0 1)
       (PWA.mkInstallability false false false false
          ["Missing or invalid web app manifest (manifest.json)";
           "No service worker registered (required for offline support)";
           "Missing app icons (required for installation)"])
       false false false
       [PWA.mkIssue "service-worker" "Registers a service worker"
          "No service worker" (Some (of_Z 0)) critical;
        PWA.mkIssue "installable-manifest" "Web app manifest"
          "Manifest is incomplete" (Some (lit 6 10)) moderate]
       (Some ["CRITICAL: Registers a service worker";
              "MODERATE: Web app manifest"])).

End Examples.

(* ===================================================================== *)
(** ** The session endpoints of the HTTP server *)
(* ===================================================================== *)

(** The handlers [app.post('/session/start')] to
    [app.post('/session/:id/comprehensive-analysis')] of the HTTP server,
    as functions from the request and the [sessions] map to the response
    and the map afterwards.  The request body is an object; a field read
    from it is absent or a value of its type.  [now k] is the [k]-th
    reading of the clock while the request is handled. *)
Module Server.

(** What [result?.report?.content?.score] reaches in the five settled
    adapter results: nothing when the adapter rejected or the path ends
    early.  The handler stores the results as they are, under [details]. *)
Record AdapterScores : Type := mkAdapterScores {
  performanceResult : option number;
  accessibilityResult : option number;
  seoResult : option number;
  bestPracticesResult : option number;
  pwaResult : option number
}.

Record LighthouseScores : Type := mkLighthouseScores {
  performance : number;
  accessibility : number;
  seo : number;
  best_practices : number;
  pwa : number
}.

Record LighthouseResults : Type := mkLighthouseResults {
  scores : LighthouseScores;
  details : AdapterScores;
  results_timestamp : string
}.

Record Session : Type := mkSession {
  sessionId : string;
  headless : bool;
  slowMo : number;
  url : option string;
  consoleLogs : list string;
  lighthouseResults : option LighthouseResults;
  comprehensiveAnalysis : option Analysis.ComprehensiveSiteAnalysis;
  created : string;
  lastActivity : string
}.

Abbreviation Sessions := (gmap string Session).

(** The fields of a response body besides the ones every response has. *)
Inductive Payload : Type :=
| no_payload
| navigated (to : string) (note : string)
| console_logs (logs : list string) (log_count : nat) (note : string)
| lighthouse_scores (of_url : string) (lighthouse : LighthouseScores)
| analysis_result (analysis : Analysis.ComprehensiveSiteAnalysis).

Record Response : Type := mkResponse {
  status : Z;
  success : bool;
  error : option string;
  message : option string;
  echoed_sessionId : option string;
  payload : Payload;
  timestamp : string
}.

(** [!v] for a string field: absent, null and the empty string are
    falsy. *)
Definition falsy (v : option string) : bool :=
  match v with
  | None => true
  | Some s => String.eqb s ""
  end.

Definition failure (code : Z) (err : string) (id : option string)
    (t : string) : Response :=
  mkResponse code false (Some err) None id no_payload t.

Definition session_start (body_sessionId : option string)
    (body_headless : option bool) (body_slowMo : option number)
    (now : nat -> string) (sessions : Sessions) : Response * Sessions :=
  if falsy body_sessionId then
    (failure 400 "sessionId parameter is required" None (now 0%nat), sessions)
  else
    let id := default "" body_sessionId in
    match sessions !! id with
    | Some _ =>
        (failure 409 "Session already exists" (Some id) (now 0%nat), sessions)
    | None =>
        let session :=
          mkSession id (default true body_headless)
            (default (of_Z 0) body_slowMo) None [] None None
            (now 0%nat) (now 1%nat) in
        (mkResponse 200 true None (Some "Session created successfully")
           (Some id) no_payload (now 2%nat),
         <[id := session]> sessions)
    end.

Definition session_navigate (id : string) (body_url : option string)
    (now : nat -> string) (sessions : Sessions) : Response * Sessions :=
  if falsy body_url then
    (failure 400 "URL parameter is required" None (now 0%nat), sessions)
  else
    match sessions !! id with
    | None => (failure 404 "Session not found" (Some id) (now 0%nat), sessions)
    | Some session =>
        let u := default "" body_url in
        let session :=
          mkSession (sessionId session) (headless session) (slowMo session)
            (Some u) (consoleLogs session) (lighthouseResults session)
            (comprehensiveAnalysis session) (created session) (now 0%nat) in
        (mkResponse 200 true None (Some ("Navigated to " +:+ u)) (Some id)
           (navigated u
              "Full navigation requires browser-tools-server and MCP server running")
           (now 1%nat),
         <[id := session]> sessions)
    end.

Definition session_console (id : string) (now : nat -> string)
    (sessions : Sessions) : Response * Sessions :=
  match sessions !! id with
  | None => (failure 404 "Session not found" (Some id) (now 0%nat), sessions)
  | Some session =>
      let session :=
        mkSession (sessionId session) (headless session) (slowMo session)
          (url session) (consoleLogs session) (lighthouseResults session)
          (comprehensiveAnalysis session) (created session) (now 0%nat) in
      (mkResponse 200 true None None (Some id)
         (console_logs (consoleLogs session) (length (consoleLogs session))
            "Console logs require browser-tools-server and Chrome extension running")
         (now 1%nat),
       <[id := session]> sessions)
  end.

(** [lighthouse_scores]: each score with the fallback [|| 0]. *)
Definition extract_scores (r : AdapterScores) : LighthouseScores :=
  mkLighthouseScores
    (or_zero (default (of_Z 0) (performanceResult r)))
    (or_zero (default (of_Z 0) (accessibilityResult r)))
    (or_zero (default (of_Z 0) (seoResult r)))
    (or_zero (default (of_Z 0) (bestPracticesResult r)))
    (or_zero (default (of_Z 0) (pwaResult r))).

(** The five adapters are caught one by one, so the joined promise
    cannot reject and the inner handler is not reached. *)
Definition session_lighthouse (id : string) (results : AdapterScores)
    (now : nat -> string) (sessions : Sessions) : Response * Sessions :=
  match sessions !! id with
  | None => (failure 404 "Session not found" (Some id) (now 0%nat), sessions)
  | Some session =>
      if falsy (url session) then
        (failure 400 "No URL navigated yet. Use POST /session/:id/navigate first"
           (Some id) (now 0%nat), sessions)
      else
        let u := default "" (url session) in
        let lighthouse := extract_scores results in
        let session :=
          mkSession (sessionId session) (headless session) (slowMo session)
            (url session) (consoleLogs session)
            (Some (mkLighthouseResults lighthouse results (now 1%nat)))
            (comprehensiveAnalysis session) (created session) (now 0%nat) in
        (mkResponse 200 true None None (Some id)
           (lighthouse_scores u lighthouse) (now 2%nat),
         <[id := session]> sessions)
  end.

Definition session_close (id : string) (now : nat -> string)
    (sessions : Sessions) : Response * Sessions :=
  match sessions !! id with
  | None => (failure 404 "Session not found" (Some id) (now 0%nat), sessions)
  | Some _ =>
      (mkResponse 200 true None (Some "Session closed successfully") (Some id)
         no_payload (now 0%nat),
       delete id sessions)
  end.

(** [analysis] is the settled result of [runComprehensiveSiteAnalysis(url)].
    The session object is the one held by the map, so storing the
    analysis in it changes the map. *)
Definition session_comprehensive_analysis (id : string)
    (body_url : option string)
    (analysis : Outcome Analysis.ComprehensiveSiteAnalysis)
    (now : nat -> string) (sessions : Sessions) : Response * Sessions :=
  if falsy body_url then
    (failure 400 "URL is required" None (now 0%nat), sessions)
  else
    match sessions !! id with
    | None => (failure 404 "Session not found" (Some id) (now 0%nat), sessions)
    | Some session =>
        match analysis with
        | Resolved an =>
            let session :=
              mkSession (sessionId session) (headless session) (slowMo session)
                (url session) (consoleLogs session) (lighthouseResults session)
                (Some an) (created session) (lastActivity session) in
            (mkResponse 200 true None None (Some id) (analysis_result an)
               (now 0%nat),
             <[id := session]> sessions)
        | Rejected msg =>
            (mkResponse 500 false (Some "Comprehensive analysis failed")
               (Some msg) None no_payload (now 0%nat),
             sessions)
        end
    end.

(** A request to one of the session endpoints.  For the analysis the
    request comes with what the five adapters settle to and with the time
    stamp the analysis takes. *)
Inductive Request : Type :=
| StartSession (body_sessionId : option string) (body_headless : option bool)
    (body_slowMo : option number)
| Navigate (id : string) (body_url : option string)
| GetConsole (id : string)
| GetLighthouse (id : string) (results : AdapterScores)
| CloseSession (id : string)
| Analyse (id : string) (body_url : option string) (analyzed_at : string)
    (performanceResult : Outcome Analysis.PerformanceReportContent)
    (accessibilityResult : Outcome Analysis.AccessibilityReportContent)
    (seoResult : Outcome Analysis.SEOReportContent)
    (bestPracticesResult : Outcome Analysis.BestPracticesReportContent)
    (pwaResult : Outcome PWA.AIOptimizedPWAReport).

Definition handle (req : Request) (now : nat -> string) (sessions : Sessions)
  : Response * Sessions :=
  match req with
  | StartSession sid h sm => session_start sid h sm now sessions
  | Navigate id u => session_navigate id u now sessions
  | GetConsole id => session_console id now sessions
  | GetLighthouse id results => session_lighthouse id results now sessions
  | CloseSession id => session_close id now sessions
  | Analyse id u t rp ra rs rb rw =>
      session_comprehensive_analysis id u
        (Analysis.runComprehensiveSiteAnalysis (default "" u) t rp ra rs rb rw)
        now sessions
  end.

(** The session a request addresses. *)
Definition target (req : Request) : option string :=
  match req with
  | StartSession sid _ _ => sid
  | Navigate id _ | GetConsole id | GetLighthouse id _ | CloseSession id
  | Analyse id _ _ _ _ _ _ _ => Some id
  end.

(** Requests handled one after the other, each with its own clock. *)
Fixpoint serve (reqs : list (Request * (nat -> string))) (sessions : Sessions)
  : Sessions :=
  match reqs with
  | [] => sessions
  | (req, now) :: reqs => serve reqs (snd (handle req now sessions))
  end.

(** What holds of every session the server keeps. *)
Definition well_kept (sessions : Sessions) : Prop :=
  forall k s,
    sessions !! k = Some s ->
    sessionId s = k /\ k <> "" /\ url s <> Some "" /\ consoleLogs s = [].

End Server.

(* ===================================================================== *)
(** ** Further notions and sample inputs *)
(* ===================================================================== *)

Module Derived.

(** The loop state after [st1] has been followed by the references that
    lead from the initial state to [st2]: the issues of [st1] and then
    those of [st2], and counters added up. *)
Definition loop_join (st1 st2 : PWA.LoopState) : PWA.LoopState :=
  PWA.mkLoop (PWA.l_issues st1 ++ PWA.l_issues st2)
    (PWA.failedCount st1 + PWA.failedCount st2)
    (PWA.passedCount st1 + PWA.passedCount st2)
    (PWA.manualCount st1 + PWA.manualCount st2)
    (PWA.informativeCount st1 + PWA.informativeCount st2)
    (PWA.notApplicableCount st1 + PWA.notApplicableCount st2).

(** An issue of the report, traced back to the reference and the audit
    it was built from. *)
Definition issue_of_failed_audit (r : PWA.LighthouseResult)
    (cat : PWA.Category) (i : PWA.PWAIssue) : Prop :=
  exists ref audit,
    In ref (PWA.auditRefs cat)
    /\ PWA.audits r !! PWA.ref_id ref = Some audit
    /\ Spec.classify audit = Spec.in_failed
    /\ i = PWA.mkIssue (PWA.ref_id ref) (PWA.audit_title audit)
             (PWA.audit_description audit) (PWA.audit_score audit)
             (PWA.severity_of_score (PWA.audit_score audit)).

(** [Examples.sample_result] with one more audit, which the "pwa"
    category does not refer to. *)
Definition sample_result_more : PWA.LighthouseResult :=
  PWA.mkResult (PWA.categories Examples.sample_result)
    (<["redirects-http" :=
        PWA.mkAudit "Redirects HTTP traffic to HTTPS" "No redirect"
          (Some (of_Z 0)) "binary"]> (PWA.audits Examples.sample_result)).

(** Two sessions that have just been started. *)
Definition two_sessions : Server.Sessions :=
  <["a" := Server.mkSession "a" true (of_Z 0) None [] None None "t0" "t0"]>
    (<["b" := Server.mkSession "b" true (of_Z 0) None [] None None "t0" "t0"]>
       ∅).

End Derived.

(* ===================================================================== *)
(** ** Properties of the weighted score *)
(* ===================================================================== *)

Section ScoreTableFacts.
Import ScoreTable.

Lemma SF_same_eq (x y : number) : SF_same x y = true -> x = y.
Proof.
  destruct x as [a|a| |a m e], y as [b|b| |b n f]; simpl; try discriminate;
    try reflexivity.
  - intros H. apply eqb_prop in H. now subst.
  - intros H. apply eqb_prop in H. now subst.
  - intros H. apply andb_prop in H as [H He]. apply andb_prop in H as [Hs Hm].
    apply eqb_prop in Hs. apply Pos.eqb_eq in Hm. apply Z.eqb_eq in He.
    now subst.
Qed.

Lemma tadd_new k v t : holds (tadd k v t) k v.
Proof.
  unfold tadd, holds. destruct (t !! k) as [l|] eqn:E.
  - destruct (existsb (SF_same v) l) eqn:Ex.
    + apply existsb_exists in Ex as (x & Hx & Hs).
      apply SF_same_eq in Hs. subst x. eauto.
    + exists (v :: l). split; [apply lookup_insert_eq | now left].
  - exists [v]. split; [apply lookup_insert_eq | now left].
Qed.

Lemma tadd_old k' v' t k v : holds t k v -> holds (tadd k' v' t) k v.
Proof.
  intros (l & Hl & Hv). unfold tadd, holds.
  destruct (t !! k') as [l'|] eqn:E.
  - destruct (existsb (SF_same v') l'); [eauto|].
    destruct (decide (k' = k)) as [->|Hne].
    + exists (v' :: l'). split; [apply lookup_insert_eq|].
      right. congruence.
    + exists l. split; [|assumption]. now rewrite lookup_insert_ne.
  - destruct (decide (k' = k)) as [->|Hne]; [congruence|].
    exists l. split; [|assumption]. now rewrite lookup_insert_ne.
Qed.

Lemma tadd_all_old {A} (f : A -> Z * number) l t k v :
  holds t k v -> holds (tadd_all f l t) k v.
Proof.
  unfold tadd_all. revert t.
  induction l as [|x l IH]; intros t H; simpl; [assumption|].
  apply IH. now apply tadd_old.
Qed.

Lemma tadd_all_new {A} (f : A -> Z * number) l t x :
  In x l -> holds (tadd_all f l t) (fst (f x)) (snd (f x)).
Proof.
  unfold tadd_all. revert t.
  induction l as [|y l IH]; intros t H; simpl; [destruct H|].
  destruct H as [->|H].
  - apply (tadd_all_old f l). apply tadd_new.
  - now apply IH.
Qed.

Lemma entries_complete t k v : holds t k v -> In (k, v) (entries t).
Proof.
  intros (l & Hl & Hv). unfold entries. apply in_flat_map.
  exists (k, l). split.
  - apply list_elem_of_In. now apply elem_of_map_to_list.
  - simpl. now apply in_map.
Qed.

Lemma extend_sound t ts k v j u :
  holds t k v -> In (j, u) ts -> holds (extend t ts) (k + j) (add v u).
Proof.
  intros H Hju. apply entries_complete in H. unfold extend.
  generalize (∅ : gmap Z (list number)) as acc.
  induction (entries t) as [|kv l IH]; intros acc; simpl; [destruct H|].
  destruct H as [->|H].
  - clear IH.
    assert (Hnew : holds (tadd_all (plus_term (k, v)) ts acc) (k + j) (add v u))
      by apply (tadd_all_new (plus_term (k, v)) ts acc (j, u) Hju).
    revert Hnew. generalize (tadd_all (plus_term (k, v)) ts acc) as acc'.
    induction l as [|kv' l IH]; intros acc' Hnew; simpl; [assumption|].
    apply IH. now apply tadd_all_old.
  - now apply IH.
Qed.

Lemma in_range101 n : 0 <= n <= 100 -> In n range101.
Proof.
  intros H. unfold range101. apply in_map_iff. exists (Z.to_nat n). split.
  - lia.
  - apply in_seq. lia.
Qed.

Lemma in_terms numer weight n :
  0 <= n <= 100 -> In (numer * n, mul (of_Z n) weight) (terms numer weight).
Proof.
  intros H. unfold terms.
  apply (in_map (fun n => (numer * n, mul (of_Z n) weight))).
  now apply in_range101.
Qed.

Lemma final_ok_true : final_ok = true.
Proof. vm_cast_no_check (eq_refl true). Qed.

Lemma scores_fixed_true : scores_fixed = true.
Proof. vm_cast_no_check (eq_refl true). Qed.

(** Every double the weighted sum can take on scores in 0..100 rounds to
    an integer nearest to the exact sum. *)
Lemma weighted_sum_nearest p a s b w :
  0 <= p <= 100 -> 0 <= a <= 100 -> 0 <= s <= 100 -> 0 <= b <= 100 ->
  0 <= w <= 100 ->
  nearest_ok (6 * p + 5 * a + 5 * s + 3 * b + 1 * w)
    (Analysis.weighted_sum
       (Analysis.mkScores (of_Z p) (of_Z a) (of_Z s) (of_Z b) (of_Z w))) = true.
Proof.
  intros Hp Ha Hs Hb Hw.
  assert (H0 : holds stage0 (6 * p) (mul (of_Z p) Analysis.w_performance)).
  { apply (tadd_all_new (fun x => x) _ ∅ (6 * p, mul (of_Z p) _)).
    now apply in_terms. }
  pose proof (extend_sound _ _ _ _ _ _ H0 (in_terms 5 Analysis.w_accessibility a Ha)) as H1.
  pose proof (extend_sound _ _ _ _ _ _ H1 (in_terms 5 Analysis.w_seo s Hs)) as H2.
  pose proof (extend_sound _ _ _ _ _ _ H2 (in_terms 3 Analysis.w_best_practices b Hb)) as H3.
  pose proof (extend_sound _ _ _ _ _ _ H3 (in_terms 1 Analysis.w_pwa w Hw)) as H4.
  apply entries_complete in H4.
  pose proof final_ok_true as F. unfold final_ok in F.
  rewrite forallb_forall in F. exact (F _ H4).
Qed.

End ScoreTableFacts.

(* ===================================================================== *)
(** ** The overall score and the exact weighted sum *)
(* ===================================================================== *)

Section ExactScore.
Import Spec.

Lemma exact_weighted_twentieths p a s b w :
  (exact_weighted p a s b w == (6 * p + 5 * a + 5 * s + 3 * b + 1 * w) # 20)%Q.
Proof.
  unfold exact_weighted, Qeq, Qplus, Qmult, inject_Z. simpl. lia.
Qed.

Lemma spec_overall_twentieths p a s b w :
  0 <= p -> 0 <= a -> 0 <= s -> 0 <= b -> 0 <= w ->
  spec_overall_score p a s b w
  = (6 * p + 5 * a + 5 * s + 3 * b + 1 * w + 10) / 20.
Proof.
  intros Hp Ha Hs Hb Hw. unfold spec_overall_score, round_half_away.
  set (k := 6 * p + 5 * a + 5 * s + 3 * b + 1 * w).
  assert (Hk : 0 <= k) by (unfold k; lia).
  pose proof (exact_weighted_twentieths p a s b w) as E. fold k in E.
  assert (Hnn : Qle_bool 0 (exact_weighted p a s b w) = true).
  { apply Qle_bool_iff. rewrite E. unfold Qle. simpl. lia. }
  rewrite Hnn.
  assert (E2 : (exact_weighted p a s b w + (1 # 2) == (k + 10) # 20)%Q).
  { rewrite E. unfold Qeq, Qplus. simpl. lia. }
  rewrite (Qfloor_comp _ _ E2). reflexivity.
Qed.

Lemma is_tie_twentieths p a s b w :
  is_tie (exact_weighted p a s b w)
  <-> (6 * p + 5 * a + 5 * s + 3 * b + 1 * w) mod 20 = 10.
Proof.
  set (k := 6 * p + 5 * a + 5 * s + 3 * b + 1 * w).
  pose proof (exact_weighted_twentieths p a s b w) as E. fold k in E.
  unfold is_tie. rewrite (Qfloor_comp _ _ E). rewrite E.
  unfold Qfloor, Qeq, Qplus, inject_Z. simpl.
  split; intros H; Z.div_mod_to_equations; lia.
Qed.

Lemma exact_distance p a s b w n :
  let k := 6 * p + 5 * a + 5 * s + 3 * b + 1 * w in
  -10 <= 20 * n - k <= 10 ->
  (Qabs (exact_weighted p a s b w - inject_Z n) <= 1 # 2)%Q.
Proof.
  intros k H. apply Qabs_Qle_condition.
  rewrite (exact_weighted_twentieths p a s b w). fold k.
  unfold Qle, Qminus, Qplus, Qopp, inject_Z. simpl. lia.
Qed.

End ExactScore.

Lemma rounds_to_sound (x : number) (n : Z) :
  ScoreTable.rounds_to x = Some n -> Math_round x = of_Z n.
Proof.
  destruct x as [[|]| | |[|] m e]; simpl; try discriminate.
  - intros [= <-]. reflexivity.
  - destruct (0 <=? e); [discriminate|]. intros [= <-].
    destruct (round_half_up false m e =? 0) eqn:E; [|reflexivity].
    apply Z.eqb_eq in E. now rewrite E.
Qed.

Lemma or_zero_score (n : Z) : 0 <= n <= 100 -> or_zero (of_Z n) = of_Z n.
Proof.
  intros H. apply SF_same_eq.
  pose proof scores_fixed_true as F. unfold ScoreTable.scores_fixed in F.
  rewrite forallb_forall in F. apply F. now apply in_range101.
Qed.

(** The decimal weights add up to one, and so do the doubles that stand
    for them when they are added from left to right. *)
Lemma weights_sum_to_one :
  ((30 # 100) + (25 # 100) + (25 # 100) + (15 # 100) + (5 # 100) == 1)%Q
  /\ add (add (add (add Analysis.w_performance Analysis.w_accessibility)
                   Analysis.w_seo) Analysis.w_best_practices) Analysis.w_pwa
     = of_Z 1.
Proof. split; [reflexivity | vm_compute; reflexivity]. Qed.

(** The analysis never rejects once the five adapters have settled. *)
Lemma run_resolves url now rp ra rs rb rw :
  exists an,
    Analysis.runComprehensiveSiteAnalysis url now rp ra rs rb rw = Resolved an.
Proof. eexists. reflexivity. Qed.

Lemma run_overall_score url now rp ra rs rb rw an :
  Analysis.runComprehensiveSiteAnalysis url now rp ra rs rb rw = Resolved an ->
  Analysis.overall_score an
  = Analysis.compute_overall_score (Analysis.category_scores an)
  /\ Analysis.category_scores an
     = Analysis.mkScores
         (Analysis.score_or_zero Analysis.perf_score (Analysis.caught (fun c => c) rp))
         (Analysis.score_or_zero Analysis.a11y_score (Analysis.caught (fun c => c) ra))
         (Analysis.score_or_zero Analysis.seo_score (Analysis.caught (fun c => c) rs))
         (Analysis.score_or_zero Analysis.bp_score (Analysis.caught (fun c => c) rb))
         (Analysis.score_or_zero PWA.content_score (Analysis.caught PWA.content rw)).
Proof.
  unfold Analysis.runComprehensiveSiteAnalysis. intros [= <-].
  split; reflexivity.
Qed.

(** C1, as amended.  For category scores that are integers in 0..100 the
    analysis succeeds and its overall score is an integer [n] in 0..100
    nearest to the exact weighted sum
    0.30 perf + 0.25 a11y + 0.25 seo + 0.15 bp + 0.05 pwa: it lies within
    1/2 of that sum, and it is the sum rounded half away from zero whenever
    the sum is not exactly half way between two integers.  The decimal
    weights add up to 1, and so do their doubles added from left to
    right. *)
Theorem overall_score_nearest_integer
    (url now : string)
    (cp : Analysis.PerformanceReportContent)
    (ca : Analysis.AccessibilityReportContent)
    (cs : Analysis.SEOReportContent)
    (cb : Analysis.BestPracticesReportContent)
    (cw : PWA.AIOptimizedPWAReport)
    (p a s b w : Z) :
  0 <= p <= 100 -> 0 <= a <= 100 -> 0 <= s <= 100 -> 0 <= b <= 100 ->
  0 <= w <= 100 ->
  Analysis.perf_score cp = of_Z p ->
  Analysis.a11y_score ca = of_Z a ->
  Analysis.seo_score cs = of_Z s ->
  Analysis.bp_score cb = of_Z b ->
  PWA.content_score (PWA.content cw) = of_Z w ->
  exists an n,
    Analysis.runComprehensiveSiteAnalysis url now (Resolved cp) (Resolved ca)
      (Resolved cs) (Resolved cb) (Resolved cw) = Resolved an
    /\ Analysis.overall_score an = of_Z n
    /\ 0 <= n <= 100
    /\ (Qabs (Spec.exact_weighted p a s b w - inject_Z n) <= 1 # 2)%Q
    /\ (~ Spec.is_tie (Spec.exact_weighted p a s b w) ->
        n = Spec.spec_overall_score p a s b w)
    /\ ((30 # 100) + (25 # 100) + (25 # 100) + (15 # 100) + (5 # 100) == 1)%Q
    /\ add (add (add (add Analysis.w_performance Analysis.w_accessibility)
                     Analysis.w_seo) Analysis.w_best_practices) Analysis.w_pwa
       = of_Z 1.
Proof.
  intros Hp Ha Hs Hb Hw Ep Ea Es Eb Ew.
  pose proof (weighted_sum_nearest p a s b w Hp Ha Hs Hb Hw) as N.
  unfold ScoreTable.nearest_ok in N.
  destruct (ScoreTable.rounds_to _) as [n|] eqn:R; [|discriminate].
  apply rounds_to_sound in R.
  set (k := 6 * p + 5 * a + 5 * s + 3 * b + 1 * w) in *.
  assert (Hn : n = (k + 10) / 20 \/ (k mod 20 = 10 /\ n = (k + 10) / 20 - 1)).
  { apply orb_prop in N as [N|N].
    - left. now apply Z.eqb_eq.
    - right. apply andb_prop in N as [N1 N2].
      split; now apply Z.eqb_eq. }
  assert (Hk : 0 <= k <= 2000) by (unfold k; lia).
  destruct (run_resolves url now (Resolved cp) (Resolved ca) (Resolved cs)
              (Resolved cb) (Resolved cw)) as [an Han].
  exists an, n. split; [exact Han|].
  apply run_overall_score in Han as [Ho Hc].
  split.
  { rewrite Ho, Hc. unfold Analysis.caught, Analysis.score_or_zero.
    rewrite Ep, Ea, Es, Eb, Ew. rewrite !or_zero_score by assumption.
    exact R. }
  split; [destruct Hn as [->|[Hm ->]]; Z.div_mod_to_equations; lia|].
  split.
  { apply exact_distance. fold k.
    destruct Hn as [->|[Hm ->]]; Z.div_mod_to_equations; lia. }
  split.
  { intros Hnt. rewrite spec_overall_twentieths by lia. fold k.
    destruct Hn as [->|[Hm _]]; [reflexivity|].
    exfalso. apply Hnt. now apply is_tie_twentieths. }
  exact weights_sum_to_one.
Qed.

(** C1, witness: four scores of 80 and a PWA score of 30. *)
Lemma overall_score_nearest_integer_witness :
  exists an n,
    Analysis.runComprehensiveSiteAnalysis "https://example.org" "2024-01-01"
      (Resolved (Examples.perf_with_score 80)) (Resolved (Examples.a11y_with_score 80))
      (Resolved (Examples.seo_with_score 80)) (Resolved (Examples.bp_with_score 80))
      (Resolved (Examples.pwa_with_score 30)) = Resolved an
    /\ Analysis.overall_score an = of_Z n
    /\ 0 <= n <= 100
    /\ (Qabs (Spec.exact_weighted 80 80 80 80 30 - inject_Z n) <= 1 # 2)%Q
    /\ (~ Spec.is_tie (Spec.exact_weighted 80 80 80 80 30) ->
        n = Spec.spec_overall_score 80 80 80 80 30)
    /\ ((30 # 100) + (25 # 100) + (25 # 100) + (15 # 100) + (5 # 100) == 1)%Q
    /\ add (add (add (add Analysis.w_performance Analysis.w_accessibility)
                     Analysis.w_seo) Analysis.w_best_practices) Analysis.w_pwa
       = of_Z 1.
Proof.
  apply (overall_score_nearest_integer "https://example.org" "2024-01-01"
           (Examples.perf_with_score 80) (Examples.a11y_with_score 80) (Examples.seo_with_score 80)
           (Examples.bp_with_score 80) (Examples.pwa_with_score 30) 80 80 80 80 30).
  all: try lia.
  all: reflexivity.
Defined.

(** C1, counterexample.  With a best-practices score of 3, a PWA score of 1
    and the other scores 0 the exact weighted sum is 0.45 + 0.05 = 0.5,
    which rounds half away from zero to 1; the doubles add up to
    0.49999999999999994 and the overall score is 0. *)
Lemma overall_score_tie_rounds_down :
  exists an,
    Analysis.runComprehensiveSiteAnalysis "https://example.org" "2024-01-01"
      (Resolved (Examples.perf_with_score 0)) (Resolved (Examples.a11y_with_score 0))
      (Resolved (Examples.seo_with_score 0)) (Resolved (Examples.bp_with_score 3))
      (Resolved (Examples.pwa_with_score 1)) = Resolved an
    /\ Analysis.overall_score an = of_Z 0
    /\ Spec.spec_overall_score 0 0 0 3 1 = 1
    /\ Analysis.overall_score an <> of_Z (Spec.spec_overall_score 0 0 0 3 1).
Proof.
  eexists. split; [reflexivity|].
  split; [vm_compute; reflexivity|].
  split; [vm_compute; reflexivity|].
  vm_compute. discriminate.
Qed.

(* ===================================================================== *)
(** ** Failed adapters *)
(* ===================================================================== *)

Lemma zero_score_terms :
  mul (of_Z 0) Analysis.w_performance = of_Z 0
  /\ mul (of_Z 0) Analysis.w_accessibility = of_Z 0
  /\ mul (of_Z 0) Analysis.w_seo = of_Z 0
  /\ mul (of_Z 0) Analysis.w_best_practices = of_Z 0
  /\ mul (of_Z 0) Analysis.w_pwa = of_Z 0.
Proof. vm_compute. repeat split. Qed.

Lemma all_zero_overall :
  Analysis.compute_overall_score
    (Analysis.mkScores (of_Z 0) (of_Z 0) (of_Z 0) (of_Z 0) (of_Z 0)) = of_Z 0.
Proof. vm_compute. reflexivity. Qed.

Lemma empty_reports_canonical :
  Analysis.createEmptyPerformanceReport
  = Analysis.mkPerformance (of_Z 0) (mkAuditCounts 0 0 0 0 0)
      (Analysis.mkVitals None None) [] [] []
  /\ Analysis.createEmptyAccessibilityReport
     = Analysis.mkAccessibility (of_Z 0) (mkAuditCounts 0 0 0 0 0) [] [] []
  /\ Analysis.createEmptySEOReport
     = Analysis.mkSEO (of_Z 0) (mkAuditCounts 0 0 0 0 0) []
         (Analysis.mkSEOCategories None)
  /\ Analysis.createEmptyBestPracticesReport
     = Analysis.mkBestPractices (of_Z 0) (mkAuditCounts 0 0 0 0 0) []
  /\ Analysis.createEmptyPWAReport
     = PWA.mkContent (of_Z 0) (mkAuditCounts 0 0 0 0 0)
         (PWA.mkInstallability false false false false [])
         false false false [] None.
Proof. repeat split. Qed.

(** C2.  The analysis resolves whatever the five adapters did.  For every
    adapter that raised, the report of its category is the canonical empty
    report, its entry of [category_scores] is 0 and so is its term of the
    weighted sum; when all five raised the overall score is 0.  The empty
    reports have score 0, all five audit counts 0, no issues and the
    extension fields at their defaults. *)
Theorem failed_adapters_absorbed (url now : string)
    (rp : Outcome Analysis.PerformanceReportContent)
    (ra : Outcome Analysis.AccessibilityReportContent)
    (rs : Outcome Analysis.SEOReportContent)
    (rb : Outcome Analysis.BestPracticesReportContent)
    (rw : Outcome PWA.AIOptimizedPWAReport) :
  exists an,
    Analysis.runComprehensiveSiteAnalysis url now rp ra rs rb rw = Resolved an
    /\ Analysis.overall_score an
       = Analysis.compute_overall_score (Analysis.category_scores an)
    /\ (Spec.raised rp ->
        Analysis.r_performance an = Analysis.createEmptyPerformanceReport
        /\ Analysis.performance (Analysis.category_scores an) = of_Z 0
        /\ mul (Analysis.performance (Analysis.category_scores an))
               Analysis.w_performance = of_Z 0)
    /\ (Spec.raised ra ->
        Analysis.r_accessibility an = Analysis.createEmptyAccessibilityReport
        /\ Analysis.accessibility (Analysis.category_scores an) = of_Z 0
        /\ mul (Analysis.accessibility (Analysis.category_scores an))
               Analysis.w_accessibility = of_Z 0)
    /\ (Spec.raised rs ->
        Analysis.r_seo an = Analysis.createEmptySEOReport
        /\ Analysis.seo (Analysis.category_scores an) = of_Z 0
        /\ mul (Analysis.seo (Analysis.category_scores an))
               Analysis.w_seo = of_Z 0)
    /\ (Spec.raised rb ->
        Analysis.r_best_practices an = Analysis.createEmptyBestPracticesReport
        /\ Analysis.best_practices (Analysis.category_scores an) = of_Z 0
        /\ mul (Analysis.best_practices (Analysis.category_scores an))
               Analysis.w_best_practices = of_Z 0)
    /\ (Spec.raised rw ->
        Analysis.r_pwa an = Analysis.createEmptyPWAReport
        /\ Analysis.pwa (Analysis.category_scores an) = of_Z 0
        /\ mul (Analysis.pwa (Analysis.category_scores an))
               Analysis.w_pwa = of_Z 0)
    /\ (Spec.raised rp -> Spec.raised ra -> Spec.raised rs -> Spec.raised rb ->
        Spec.raised rw -> Analysis.overall_score an = of_Z 0)
    /\ Analysis.createEmptyPerformanceReport
       = Analysis.mkPerformance (of_Z 0) (mkAuditCounts 0 0 0 0 0)
           (Analysis.mkVitals None None) [] [] []
    /\ Analysis.createEmptyAccessibilityReport
       = Analysis.mkAccessibility (of_Z 0) (mkAuditCounts 0 0 0 0 0) [] [] []
    /\ Analysis.createEmptySEOReport
       = Analysis.mkSEO (of_Z 0) (mkAuditCounts 0 0 0 0 0) []
           (Analysis.mkSEOCategories None)
    /\ Analysis.createEmptyBestPracticesReport
       = Analysis.mkBestPractices (of_Z 0) (mkAuditCounts 0 0 0 0 0) []
    /\ Analysis.createEmptyPWAReport
       = PWA.mkContent (of_Z 0) (mkAuditCounts 0 0 0 0 0)
           (PWA.mkInstallability false false false false [])
           false false false [] None.
Proof.
  destruct (run_resolves url now rp ra rs rb rw) as [an Han].
  exists an. split; [exact Han|].
  destruct (run_overall_score _ _ _ _ _ _ _ _ Han) as [Ho Hc].
  split; [exact Ho|].
  destruct zero_score_terms as (Zp & Za & Zs & Zb & Zw).
  unfold Analysis.runComprehensiveSiteAnalysis in Han.
  injection Han as <-.
  cbn [Analysis.r_performance Analysis.r_accessibility Analysis.r_seo
       Analysis.r_best_practices Analysis.r_pwa Analysis.category_scores
       Analysis.overall_score Analysis.performance Analysis.accessibility
       Analysis.seo Analysis.best_practices Analysis.pwa].
  split; [intros [m ->]; cbn [Analysis.caught Analysis.score_or_zero default];
          auto|].
  split; [intros [m ->]; cbn [Analysis.caught Analysis.score_or_zero default];
          auto|].
  split; [intros [m ->]; cbn [Analysis.caught Analysis.score_or_zero default];
          auto|].
  split; [intros [m ->]; cbn [Analysis.caught Analysis.score_or_zero default];
          auto|].
  split; [intros [m ->]; cbn [Analysis.caught Analysis.score_or_zero default];
          auto|].
  split; [|exact empty_reports_canonical].
  intros [m1 ->] [m2 ->] [m3 ->] [m4 ->] [m5 ->].
  cbn [Analysis.caught Analysis.score_or_zero]. exact all_zero_overall.
Qed.

(** C2, witness: all five adapters reject. *)
Lemma failed_adapters_absorbed_witness :
  exists an,
    Analysis.runComprehensiveSiteAnalysis "https://example.org" "2024-01-01"
      (Rejected "Performance audit failed: timeout")
      (Rejected "Accessibility audit failed: timeout")
      (Rejected "SEO audit failed: timeout")
      (Rejected "Best Practices audit failed: timeout")
      (Rejected "PWA audit failed: timeout") = Resolved an
    /\ Analysis.overall_score an = of_Z 0
    /\ Analysis.r_performance an = Analysis.createEmptyPerformanceReport
    /\ Analysis.r_accessibility an = Analysis.createEmptyAccessibilityReport
    /\ Analysis.r_seo an = Analysis.createEmptySEOReport
    /\ Analysis.r_best_practices an = Analysis.createEmptyBestPracticesReport
    /\ Analysis.r_pwa an = Analysis.createEmptyPWAReport
    /\ Analysis.category_scores an
       = Analysis.mkScores (of_Z 0) (of_Z 0) (of_Z 0) (of_Z 0) (of_Z 0).
Proof.
  destruct (failed_adapters_absorbed "https://example.org" "2024-01-01"
              (Rejected "Performance audit failed: timeout")
              (Rejected "Accessibility audit failed: timeout")
              (Rejected "SEO audit failed: timeout")
              (Rejected "Best Practices audit failed: timeout")
              (Rejected "PWA audit failed: timeout"))
    as (an & Han & _ & Hp & Ha & Hs & Hb & Hw & Hall & _).
  assert (R : forall A m, Spec.raised (@Rejected A m)) by (intros A m; now exists m).
  exists an. split; [exact Han|].
  split; [apply Hall; apply R|].
  destruct (Hp (R _ _)) as (-> & Ep & _), (Ha (R _ _)) as (-> & Ea & _),
    (Hs (R _ _)) as (-> & Es & _), (Hb (R _ _)) as (-> & Eb & _),
    (Hw (R _ _)) as (-> & Ew & _).
  repeat (split; [reflexivity|]).
  destruct (Analysis.category_scores an); cbn in *. congruence.
Defined.

(* ===================================================================== *)
(** ** Severity of a failed audit *)
(* ===================================================================== *)

Lemma half_bits : lit 1 2 = S754_finite false 4503599627370496 (-53).
Proof. vm_compute. reflexivity. Qed.

Lemma seven_tenths_bits : lit 7 10 = S754_finite false 6305039478318694 (-53).
Proof. vm_compute. reflexivity. Qed.

Lemma zero_bits : of_Z 0 = S754_zero false.
Proof. vm_compute. reflexivity. Qed.

(** A number above 0.7 is neither 0 nor at most 0.5. *)
Lemma above_seven_tenths x :
  JS.gt x (lit 7 10) = true ->
  JS.strict_eq x (of_Z 0) = false /\ JS.le x (lit 1 2) = false.
Proof.
  rewrite seven_tenths_bits, half_bits, zero_bits.
  unfold JS.gt, JS.strict_eq, JS.le, SFltb, SFeqb, SFleb.
  destruct x as [s|[|]| |[|] m e]; cbn [SFcompare]; try discriminate;
    try (split; reflexivity).
  destruct (Z.compare_spec (-53) e) as [<-|H|H]; try discriminate.
  - rewrite Z.compare_refl, !Pos.compare_cont_spec. cbn [Pos.switch_Eq].
    destruct (Pos.compare_spec 6305039478318694 m) as [E|E|E]; try discriminate.
    intros _. split; [reflexivity|].
    destruct (Pos.compare_spec m 4503599627370496) as [E'|E'|E'];
      try reflexivity; exfalso.
    + subst m. vm_compute in E. discriminate.
    + pose proof (Pos.lt_trans _ _ _ E E') as F. vm_compute in F. discriminate.
  - intros _. split; [reflexivity|].
    destruct (Z.compare_spec e (-53)); try reflexivity; exfalso; lia.
Qed.

(** C3.  The severity of a failed audit with score [s]: critical exactly
    when [s] is 0; serious exactly when [s] is a number other than 0 that
    is at most 0.5; minor exactly when [s] is a number above 0.7; moderate
    in every other case, that is for a missing score and for a number that
    is neither 0, nor at most 0.5, nor above 0.7.  A score of exactly 0.5
    is serious and a score of exactly 0.7 is moderate. *)
Theorem severity_by_score (s : option number) :
  (PWA.severity_of_score s = critical <-> PWA.score_is 0 s = true)
  /\ (PWA.severity_of_score s = serious
      <-> exists x, s = Some x /\ JS.strict_eq x (of_Z 0) = false
                    /\ JS.le x (lit 1 2) = true)
  /\ (PWA.severity_of_score s = minor
      <-> exists x, s = Some x /\ JS.gt x (lit 7 10) = true)
  /\ (PWA.severity_of_score s = moderate
      <-> s = None
          \/ exists x, s = Some x /\ JS.strict_eq x (of_Z 0) = false
                       /\ JS.le x (lit 1 2) = false
                       /\ JS.gt x (lit 7 10) = false)
  /\ PWA.severity_of_score (Some (of_Z 0)) = critical
  /\ PWA.severity_of_score (Some (lit 1 2)) = serious
  /\ PWA.severity_of_score (Some (lit 7 10)) = moderate.
Proof.
  assert (Hc : PWA.severity_of_score (Some (of_Z 0)) = critical
               /\ PWA.severity_of_score (Some (lit 1 2)) = serious
               /\ PWA.severity_of_score (Some (lit 7 10)) = moderate)
    by (vm_compute; auto).
  pose proof above_seven_tenths as Hgt.
  unfold PWA.severity_of_score at 1 2 3 4. unfold PWA.score_is.
  revert Hc Hgt. generalize (lit 1 2) (lit 7 10) (of_Z 0).
  intros h t z Hc Hgt.
  assert (Hcases : forall x,
             (JS.strict_eq x z = true /\ JS.gt x t = false)
             \/ (JS.strict_eq x z = false /\ JS.le x h = true /\ JS.gt x t = false)
             \/ (JS.strict_eq x z = false /\ JS.le x h = false /\ JS.gt x t = true)
             \/ (JS.strict_eq x z = false /\ JS.le x h = false /\ JS.gt x t = false)).
  { intros x. destruct (JS.gt x t) eqn:E2.
    - destruct (Hgt x E2) as [-> ->]. right. right. now left.
    - destruct (JS.strict_eq x z); [now left|right].
      destruct (JS.le x h); [left | right; right]; easy. }
  split; [|split; [|split; [|split; [|exact Hc]]]]; clear Hc Hgt.
  - destruct s as [x|]; [|split; congruence].
    destruct (Hcases x) as [(E0 & E2)|[(E0 & E1 & E2)|[(E0 & E1 & E2)|(E0 & E1 & E2)]]];
      rewrite E0, ?E1, ?E2; split; congruence.
  - destruct s as [x|]; [|split; [congruence | intros (y & H & _); congruence]].
    destruct (Hcases x) as [(E0 & E2)|[(E0 & E1 & E2)|[(E0 & E1 & E2)|(E0 & E1 & E2)]]];
      rewrite E0, ?E1, ?E2;
      (split; [try congruence; intros _; eauto
              | try reflexivity; intros (y & [= <-] & F0 & F1); congruence]).
  - destruct s as [x|]; [|split; [congruence | intros (y & H & _); congruence]].
    destruct (Hcases x) as [(E0 & E2)|[(E0 & E1 & E2)|[(E0 & E1 & E2)|(E0 & E1 & E2)]]];
      rewrite E0, ?E1, ?E2;
      (split; [try congruence; intros _; eauto
              | try reflexivity; intros (y & [= <-] & F2); congruence]).
  - destruct s as [x|]; [|split; [now left | reflexivity]].
    destruct (Hcases x) as [(E0 & E2)|[(E0 & E1 & E2)|[(E0 & E1 & E2)|(E0 & E1 & E2)]]];
      rewrite E0, ?E1, ?E2;
      (split; [try congruence; intros _; right; eauto
              | try reflexivity;
                intros [F|(y & [= <-] & F0 & F1 & F2)]; congruence]).
Qed.

(* ===================================================================== *)
(** ** The comparator sort *)
(* ===================================================================== *)

(** Both comparators of the program are differences of an integer key
    ([a.key - b.key]; for the descending one the key is negated), so the
    facts are proved once for such a comparator. *)
Section SortByKey.
Context {A : Type} (cmp : A -> A -> Z) (key : A -> Z).
Hypothesis cmp_key : forall a b, cmp a b = key a - key b.

Local Abbreviation ordered := (StronglySorted (fun x y => key x <= key y)).

Lemma insert_perm x l : Permutation (x :: l) (JS.insert cmp x l).
Proof.
  induction l as [|y l IH]; simpl; [reflexivity|].
  destruct (cmp y x <? 0); [|reflexivity].
  rewrite perm_swap. now apply perm_skip.
Qed.

Lemma sort_perm l : Permutation l (JS.sort cmp l).
Proof.
  induction l as [|x l IH]; simpl; [constructor|].
  rewrite <- insert_perm. now apply perm_skip.
Qed.

Lemma sort_length l : length (JS.sort cmp l) = length l.
Proof. symmetry. apply Permutation_length, sort_perm. Qed.

Lemma insert_ordered x l : ordered l -> ordered (JS.insert cmp x l).
Proof.
  induction 1 as [|y l Hl IH Hy]; simpl.
  - repeat constructor.
  - rewrite cmp_key. destruct (key y - key x <? 0) eqn:E.
    + apply Z.ltb_lt in E. constructor; [assumption|].
      rewrite Forall_forall in *. intros z Hz.
      apply (Permutation_in _ (Permutation_sym (insert_perm x l))) in Hz.
      destruct Hz as [<-|Hz]; [lia | now apply Hy].
    + apply Z.ltb_ge in E. constructor; [now constructor|].
      constructor; [lia|].
      rewrite Forall_forall in *. intros z Hz. specialize (Hy z Hz). lia.
Qed.

Lemma sort_ordered l : ordered (JS.sort cmp l).
Proof.
  induction l as [|x l IH]; simpl; [constructor | now apply insert_ordered].
Qed.

(** Stability: the elements of one key keep their order. *)
Lemma insert_stable k x l :
  List.filter (fun y => key y =? k) (JS.insert cmp x l)
  = List.filter (fun y => key y =? k) (x :: l).
Proof.
  induction l as [|y l IH]; [reflexivity|].
  simpl JS.insert. rewrite cmp_key. destruct (key y - key x <? 0) eqn:E;
    [|reflexivity].
  apply Z.ltb_lt in E. simpl in *. rewrite IH.
  destruct (key x =? k) eqn:Ex; [|reflexivity].
  destruct (key y =? k) eqn:Ey; [|reflexivity].
  apply Z.eqb_eq in Ex, Ey. lia.
Qed.

Lemma sort_stable k l :
  List.filter (fun y => key y =? k) (JS.sort cmp l)
  = List.filter (fun y => key y =? k) l.
Proof.
  induction l as [|x l IH]; [reflexivity|].
  simpl JS.sort. rewrite insert_stable. simpl. now rewrite IH.
Qed.

(** A list that is in order already is left as it is. *)
Lemma sort_ordered_id l : ordered l -> JS.sort cmp l = l.
Proof.
  induction 1 as [|x l Hl IH Hx]; [reflexivity|].
  simpl. rewrite IH. destruct l as [|y l]; [reflexivity|].
  simpl. rewrite cmp_key. inversion Hx as [|? ? Hxy _]; subst.
  destruct (key y - key x <? 0) eqn:E; [|reflexivity].
  apply Z.ltb_lt in E. lia.
Qed.

End SortByKey.

(* ===================================================================== *)
(** ** Prioritized action items *)
(* ===================================================================== *)

Lemma StronglySorted_weaken {A} (R R' : A -> A -> Prop) l :
  (forall x y, R x y -> R' x y) -> StronglySorted R l -> StronglySorted R' l.
Proof.
  intros HR. induction 1 as [|x l Hl IH Hx]; constructor; [assumption|].
  eapply Forall_impl; [|exact Hx]. apply HR.
Qed.

Lemma StronglySorted_lookup_lt {A} (R : A -> A -> Prop) l (i j : nat) x y :
  StronglySorted R l -> (i < j)%nat -> l !! i = Some x -> l !! j = Some y ->
  R x y.
Proof.
  intros Hl. revert i j. induction Hl as [|z l Hl IH Hz]; intros i j Hij Hi Hj.
  - discriminate.
  - destruct j as [|j]; [lia|]. destruct i as [|i].
    + injection Hi as ->. rewrite Forall_forall in Hz. apply Hz.
      apply list_elem_of_In, list_elem_of_lookup. eauto.
    + apply (IH i j); [lia | assumption | assumption].
Qed.

Section ActionItems.
Import Analysis.

Lemma by_roi_key x y : by_roi x y = (- roi_score x) - (- roi_score y).
Proof. unfold by_roi. lia. Qed.

Lemma sort_by_roi_stable l : Spec.stable_sorted_by_roi l (JS.sort by_roi l).
Proof.
  split; [|split].
  - apply sort_perm.
  - eapply StronglySorted_weaken;
      [|exact (sort_ordered by_roi (fun x => - roi_score x) by_roi_key l)].
    simpl. intros x y H. lia.
  - intros r.
    rewrite (filter_ext (fun x => roi_score x =? r)
                        (fun x => - roi_score x =? - r)).
    + rewrite (sort_stable by_roi (fun x => - roi_score x) by_roi_key).
      apply filter_ext. intros x.
      destruct (Z.eqb_spec (roi_score x) r), (Z.eqb_spec (- roi_score x) (- r));
        try reflexivity; lia.
    + intros x.
      destruct (Z.eqb_spec (roi_score x) r), (Z.eqb_spec (- roi_score x) (- r));
        try reflexivity; lia.
Qed.

Lemma rank_and_truncate_lookup l (i : nat) :
  (i < 10)%nat ->
  rank_and_truncate l !! i = set_rank (i + 1) <$> JS.sort by_roi l !! i.
Proof.
  intros Hi. unfold rank_and_truncate, slice0.
  rewrite lookup_take_lt by assumption. now rewrite list_lookup_imap.
Qed.

Lemma rank_and_truncate_length l :
  length (rank_and_truncate l) = Nat.min 10 (length l).
Proof.
  unfold rank_and_truncate, slice0.
  rewrite length_take, length_imap. f_equal. apply sort_length.
Qed.

Lemma rank_and_truncate_Some l (i : nat) x :
  rank_and_truncate l !! i = Some x ->
  (i < 10)%nat
  /\ exists y, JS.sort by_roi l !! i = Some y /\ x = set_rank (i + 1) y.
Proof.
  intros H. assert (Hi : (i < 10)%nat).
  { apply lookup_lt_Some in H. rewrite rank_and_truncate_length in H. lia. }
  split; [assumption|]. rewrite rank_and_truncate_lookup in H by assumption.
  destruct (JS.sort by_roi l !! i) as [y|]; [|discriminate].
  injection H as <-. eauto.
Qed.

(** C4.  The action items returned are the candidates in stable order of
    descending ROI (candidates of equal ROI keep their relative order),
    each with its rank set to its 1-based position, cut after the tenth:
    the ROI sequence never increases and the list has at most 10 items. *)
Theorem prioritized_items_sorted_and_ranked
    (p : PerformanceReportContent) (a : AccessibilityReportContent)
    (s : SEOReportContent) (b : BestPracticesReportContent)
    (w : PWA.PWAReportContent) (insights : list CrossCategoryInsight) :
  exists sorted,
    Spec.stable_sorted_by_roi (action_candidates p a s b w) sorted
    /\ (forall i : nat, (i < 10)%nat ->
          generatePrioritizedActionItems p a s b w insights !! i
          = set_rank (i + 1) <$> sorted !! i)
    /\ length (generatePrioritizedActionItems p a s b w insights)
       = Nat.min 10 (length sorted)
    /\ (forall (i : nat) x,
          generatePrioritizedActionItems p a s b w insights !! i = Some x ->
          rank x = (i + 1)%nat)
    /\ (forall (i j : nat) x y, (i < j)%nat ->
          generatePrioritizedActionItems p a s b w insights !! i = Some x ->
          generatePrioritizedActionItems p a s b w insights !! j = Some y ->
          roi_score y <= roi_score x)
    /\ (length (generatePrioritizedActionItems p a s b w insights) <= 10)%nat.
Proof.
  unfold generatePrioritizedActionItems.
  set (l := action_candidates p a s b w).
  pose proof (sort_by_roi_stable l) as St.
  exists (JS.sort by_roi l). split; [exact St|].
  split; [intros i Hi; now apply rank_and_truncate_lookup|].
  split; [rewrite rank_and_truncate_length; now rewrite sort_length|].
  split; [|split].
  - intros i x H. apply rank_and_truncate_Some in H as (_ & y & _ & ->).
    reflexivity.
  - intros i j x y Hij Hx Hy.
    apply rank_and_truncate_Some in Hx as (_ & x' & Hx & ->).
    apply rank_and_truncate_Some in Hy as (_ & y' & Hy & ->).
    destruct St as (_ & Hs & _).
    exact (StronglySorted_lookup_lt _ _ i j x' y' Hs Hij Hx Hy).
  - rewrite rank_and_truncate_length. lia.
Qed.

(** No candidate has an ROI above 95, and the candidates are pushed in
    descending order of ROI. *)
Lemma candidates_descending p a s b w :
  StronglySorted (fun x y => - roi_score x <= - roi_score y)
    (action_candidates p a s b w)
  /\ Forall (fun c => roi_score c <= 95) (action_candidates p a s b w).
Proof.
  unfold action_candidates.
  destruct (gate_https b), (gate_lcp p),
    (Nat.ltb 0 (length (criticalA11yIssues a))),
    (has_seo_issue "meta-description" s), (gate_pwa w);
    cbn [push_if app length Nat.add]; split;
    repeat (constructor; cbn [roi_score action_https action_lcp action_a11y action_meta action_pwa]); lia.
Qed.

End ActionItems.

Section ActionItems2.
Import Analysis.

Lemma some_exists {A} (f : A -> bool) l :
  JS.some f l = true <-> exists x, In x l /\ f x = true.
Proof. apply existsb_exists. Qed.

Lemma candidates_sorted_already p a s b w :
  JS.sort by_roi (action_candidates p a s b w) = action_candidates p a s b w.
Proof.
  apply (sort_ordered_id by_roi (fun x => - roi_score x) by_roi_key).
  apply candidates_descending.
Qed.

Lemma https_candidate_first p a s b w :
  gate_https b = true ->
  action_candidates p a s b w !! 0%nat = Some (action_https 1).
Proof.
  intros G. unfold action_candidates. rewrite G.
  destruct (gate_lcp p), (Nat.ltb 0 (length (criticalA11yIssues a))),
    (has_seo_issue "meta-description" s), (gate_pwa w); reflexivity.
Qed.

(** C6.  When the best-practices issues hold one with id "is-on-https" and
    severity critical, the action items hold an entry titled
    "Migrate to HTTPS" with effort medium and ROI 95.  No candidate has an
    ROI above 95, so this entry is the first of the list and its rank
    is 1. *)
Theorem https_migration_ranked_first
    (p : PerformanceReportContent) (a : AccessibilityReportContent)
    (s : SEOReportContent) (b : BestPracticesReportContent)
    (w : PWA.PWAReportContent) (insights : list CrossCategoryInsight) :
  (exists i, In i (bp_issues b) /\ bp_issue_id i = "is-on-https"
             /\ bp_issue_severity i = critical) ->
  exists x,
    In x (generatePrioritizedActionItems p a s b w insights)
    /\ title x = "Migrate to HTTPS"
    /\ effort x = medium
    /\ roi_score x = 95
    /\ (forall c, In c (action_candidates p a s b w) -> roi_score c <= 95)
    /\ rank x = 1%nat
    /\ generatePrioritizedActionItems p a s b w insights !! 0%nat = Some x.
Proof.
  intros (i & Hin & Hid & Hsev).
  assert (G : gate_https b = true).
  { apply some_exists. exists i. split; [assumption|].
    rewrite Hid, Hsev. reflexivity. }
  assert (H0 : generatePrioritizedActionItems p a s b w insights !! 0%nat
               = Some (action_https 1)).
  { unfold generatePrioritizedActionItems.
    rewrite rank_and_truncate_lookup by lia.
    rewrite candidates_sorted_already, (https_candidate_first _ _ _ _ _ G).
    reflexivity. }
  exists (action_https 1).
  split; [apply list_elem_of_In, list_elem_of_lookup; eauto|].
  repeat (split; [reflexivity|]).
  split; [|split; [reflexivity | exact H0]].
  intros c Hc. destruct (candidates_descending p a s b w) as [_ F].
  rewrite Forall_forall in F. now apply F.
Qed.

End ActionItems2.

(* ===================================================================== *)
(** ** Rule tables *)
(* ===================================================================== *)

Section Tables.
Import Analysis.

Lemma insights_in_table_order p a s b w :
  generateCrossCategoryInsights p a s b w
  = Spec.fire (Spec.insight_table p a s b w).
Proof.
  unfold generateCrossCategoryInsights, Spec.fire, Spec.insight_table.
  destruct (cond_large_images p a), (cond_mobile p s), (cond_pwa p w),
    (cond_https b s), (cond_semantic a s); reflexivity.
Qed.

Lemma quick_wins_untruncated p a s b w :
  generateQuickWins p a s b w = Spec.fire (Spec.quick_win_table p a s).
Proof.
  unfold generateQuickWins, Spec.fire, Spec.quick_win_table.
  destruct (has_seo_issue "meta-description" s), (has_violation "image-alt" a),
    (has_opportunity "uses-text-compression" p), (has_seo_issue "viewport" s),
    (has_seo_issue "document-title" s), (has_violation "color-contrast" a);
    reflexivity.
Qed.

Lemma fire_length {A} (table : list (bool * A)) :
  (length (Spec.fire table) <= length table)%nat.
Proof.
  unfold Spec.fire. rewrite length_map. apply filter_length_le.
Qed.

Lemma has_violation_In i a :
  has_violation i a = true <-> exists v, In v (violations a) /\ viol_id v = i.
Proof.
  unfold has_violation. rewrite some_exists.
  split; intros (v & Hv & E); exists v; (split; [assumption|]);
    now apply String.eqb_eq.
Qed.

Lemma has_opportunity_In i p :
  has_opportunity i p = true
  <-> exists o, In o (opportunities p) /\ opp_id o = i.
Proof.
  unfold has_opportunity. rewrite some_exists.
  split; intros (v & Hv & E); exists v; (split; [assumption|]);
    now apply String.eqb_eq.
Qed.

Lemma has_seo_issue_In i s :
  has_seo_issue i s = true
  <-> exists x, In x (seo_issues s) /\ seo_issue_id x = i.
Proof.
  unfold has_seo_issue. rewrite some_exists.
  split; intros (v & Hv & E); exists v; (split; [assumption|]);
    now apply String.eqb_eq.
Qed.

(** C7.  The insights are the outputs of the rules of the table that hold,
    in table order: every rule is evaluated on its own and nothing is
    sorted afterwards.  When the opportunities hold id
    "uses-optimized-images" and the violations hold id "image-alt", exactly
    one insight has id "large-images-multi-impact"; its impact is serious,
    its categories are performance, accessibility and seo, and it is the
    first insight. *)
Theorem large_images_insight_once
    (p : PerformanceReportContent) (a : AccessibilityReportContent)
    (s : SEOReportContent) (b : BestPracticesReportContent)
    (w : PWA.PWAReportContent) :
  generateCrossCategoryInsights p a s b w
  = Spec.fire (Spec.insight_table p a s b w)
  /\ ((exists o, In o (opportunities p) /\ opp_id o = "uses-optimized-images") ->
      (exists v, In v (violations a) /\ viol_id v = "image-alt") ->
      length (List.filter
                (fun i => String.eqb (insight_id i) "large-images-multi-impact")
                (generateCrossCategoryInsights p a s b w)) = 1%nat
      /\ (forall i, In i (generateCrossCategoryInsights p a s b w) ->
            insight_id i = "large-images-multi-impact" ->
            insight_impact i = serious
            /\ affected_categories i = ["performance"; "accessibility"; "seo"])
      /\ generateCrossCategoryInsights p a s b w !! 0%nat
         = Some insight_large_images).
Proof.
  split; [apply insights_in_table_order|].
  intros Ho Hv. apply has_opportunity_In in Ho. apply has_violation_In in Hv.
  rewrite insights_in_table_order.
  unfold Spec.fire, Spec.insight_table, cond_large_images. rewrite Ho, Hv.
  destruct (cond_mobile p s), (cond_pwa p w), (cond_https b s),
    (cond_semantic a s); cbn [andb List.filter fst snd map].
  all: split; [reflexivity|split; [|reflexivity]].
  all: intros i Hin Hid; cbn [In] in Hin.
  all: repeat (destruct Hin as [<-|Hin]; [try (split; reflexivity); try discriminate Hid|]).
  all: destruct Hin.
Qed.

(** C8.  The quick wins are the outputs of the rules of the table that
    hold, in rule order, and there are at most 6 of them.  When the
    violations hold id "color-contrast", the quick wins hold an entry titled
    "Fix color contrast issues" of category "accessibility". *)
Theorem color_contrast_quick_win
    (p : PerformanceReportContent) (a : AccessibilityReportContent)
    (s : SEOReportContent) (b : BestPracticesReportContent)
    (w : PWA.PWAReportContent) :
  generateQuickWins p a s b w = Spec.fire (Spec.quick_win_table p a s)
  /\ (length (generateQuickWins p a s b w) <= 6)%nat
  /\ ((exists v, In v (violations a) /\ viol_id v = "color-contrast") ->
      exists q, In q (generateQuickWins p a s b w)
                /\ qw_title q = "Fix color contrast issues"
                /\ qw_category q = "accessibility").
Proof.
  split; [apply quick_wins_untruncated|].
  split.
  { rewrite quick_wins_untruncated.
    exact (fire_length (Spec.quick_win_table p a s)). }
  intros Hv. apply has_violation_In in Hv.
  exists qw_color_contrast. split; [|split; reflexivity].
  rewrite quick_wins_untruncated. unfold Spec.fire.
  apply in_map_iff. exists (true, qw_color_contrast). split; [reflexivity|].
  apply filter_In. split; [|reflexivity].
  unfold Spec.quick_win_table. rewrite Hv. cbn [In]. tauto.
Qed.

(** C9.  The action items do not depend on the insights passed in: two
    calls on the same five reports give the same list whatever the two
    insight lists are. *)
Theorem action_items_ignore_insights
    (p : PerformanceReportContent) (a : AccessibilityReportContent)
    (s : SEOReportContent) (b : BestPracticesReportContent)
    (w : PWA.PWAReportContent) (insights1 insights2 : list CrossCategoryInsight) :
  generatePrioritizedActionItems p a s b w insights1
  = generatePrioritizedActionItems p a s b w insights2.
Proof. unfold generatePrioritizedActionItems. reflexivity. Qed.

End Tables.

(* ===================================================================== *)
(** ** The PWA adapter *)
(* ===================================================================== *)

Section PWAFacts.
Import PWA.

Lemma by_severity_key x y :
  by_severity x y = severityOrder (severity x) - severityOrder (severity y).
Proof. reflexivity. Qed.

Lemma count_in_cons b a l :
  Spec.count_in b (a :: l) = (Spec.bump b a + Spec.count_in b l)%nat.
Proof.
  unfold Spec.count_in, Spec.bump. simpl.
  destruct (Spec.Bucket_eqb (Spec.classify a) b); reflexivity.
Qed.

Lemma run_loop_counts r refs st :
  let st' := fold_left (loop_body r) refs st in
  let ev := Spec.evaluated r refs in
  manualCount st' = (manualCount st + Spec.count_in Spec.in_manual ev)%nat
  /\ informativeCount st'
     = (informativeCount st + Spec.count_in Spec.in_informative ev)%nat
  /\ notApplicableCount st'
     = (notApplicableCount st + Spec.count_in Spec.in_not_applicable ev)%nat
  /\ passedCount st' = (passedCount st + Spec.count_in Spec.in_passed ev)%nat
  /\ failedCount st' = (failedCount st + Spec.count_in Spec.in_failed ev)%nat.
Proof.
  revert st. induction refs as [|ref refs IH]; intros st.
  - cbn. repeat split; lia.
  - cbn [fold_left]. unfold Spec.evaluated. cbn [omap list_omap].
    fold (Spec.evaluated r refs).
    specialize (IH (loop_body r st ref)). cbv zeta in IH.
    destruct IH as (Hm & Hi & Hn & Hp & Hf).
    cbv zeta. rewrite Hm, Hi, Hn, Hp, Hf. clear Hm Hi Hn Hp Hf.
    unfold loop_body.
    destruct (audits r !! ref_id ref) as [audit|]; [|repeat split; reflexivity].
    rewrite !count_in_cons. unfold Spec.bump, Spec.classify.
    destruct st as [iss f p m i na].
    destruct (String.eqb (scoreDisplayMode audit) "manual");
      [cbn; repeat split; lia|].
    destruct (String.eqb (scoreDisplayMode audit) "informative");
      [cbn; repeat split; lia|].
    destruct (String.eqb (scoreDisplayMode audit) "notApplicable");
      [cbn; repeat split; lia|].
    destruct (score_is 1 (audit_score audit)); cbn; repeat split; lia.
Qed.

Lemma count_in_total l :
  (Spec.count_in Spec.in_failed l + Spec.count_in Spec.in_passed l
   + Spec.count_in Spec.in_manual l + Spec.count_in Spec.in_informative l
   + Spec.count_in Spec.in_not_applicable l = length l)%nat.
Proof.
  induction l as [|a l IH]; [reflexivity|].
  rewrite !count_in_cons. unfold Spec.bump. cbn [length].
  destruct (Spec.classify a); cbn; lia.
Qed.

Lemma runPWAAudit_resolved r cat :
  categories r !! "pwa" = Some cat ->
  exists rep,
    runPWAAudit (Resolved r) = Resolved rep
    /\ category rep = "pwa"
    /\ audit_counts (content rep)
       = (let st := run_loop r (auditRefs cat) in
          mkAuditCounts (failedCount st) (passedCount st) (manualCount st)
            (informativeCount st) (notApplicableCount st))
    /\ issues (content rep)
       = JS.sort by_severity (l_issues (run_loop r (auditRefs cat)))
    /\ prioritized_recommendations (content rep)
       = Some (slice0 5 (map recommendation (issues (content rep)))).
Proof.
  intros H. unfold runPWAAudit. rewrite H. eexists. split; [reflexivity|].
  repeat split.
Qed.

(** C5.  In a report of the PWA adapter each of the five audit counts is
    the number of evaluated audit entries of its bucket, where an entry is
    classified in this order: display mode manual, informative, not
    applicable, else a score equal to 1 is passed, else failed.  The five
    counts add up to the number of entries evaluated. *)
Theorem pwa_audit_counts_partition
    (r : LighthouseResult) (cat : Category) (rep : AIOptimizedPWAReport) :
  categories r !! "pwa" = Some cat ->
  runPWAAudit (Resolved r) = Resolved rep ->
  manual (audit_counts (content rep))
  = Spec.count_in Spec.in_manual (Spec.evaluated r (auditRefs cat))
  /\ informative (audit_counts (content rep))
     = Spec.count_in Spec.in_informative (Spec.evaluated r (auditRefs cat))
  /\ not_applicable (audit_counts (content rep))
     = Spec.count_in Spec.in_not_applicable (Spec.evaluated r (auditRefs cat))
  /\ passed (audit_counts (content rep))
     = Spec.count_in Spec.in_passed (Spec.evaluated r (auditRefs cat))
  /\ failed (audit_counts (content rep))
     = Spec.count_in Spec.in_failed (Spec.evaluated r (auditRefs cat))
  /\ (failed (audit_counts (content rep)) + passed (audit_counts (content rep))
      + manual (audit_counts (content rep))
      + informative (audit_counts (content rep))
      + not_applicable (audit_counts (content rep))
      = length (Spec.evaluated r (auditRefs cat)))%nat.
Proof.
  intros Hcat Hrun.
  destruct (runPWAAudit_resolved r cat Hcat) as (rep' & Hrun' & _ & Hc & _).
  rewrite Hrun in Hrun'. injection Hrun' as <-.
  rewrite Hc. cbv zeta. cbn [manual informative not_applicable passed failed].
  destruct (run_loop_counts r (auditRefs cat) loop_init)
    as (Hm & Hi & Hn & Hp & Hf).
  fold (run_loop r (auditRefs cat)) in Hm, Hi, Hn, Hp, Hf.
  cbn [loop_init manualCount informativeCount notApplicableCount passedCount
       failedCount Nat.add] in Hm, Hi, Hn, Hp, Hf.
  rewrite Hm, Hi, Hn, Hp, Hf. repeat (split; [reflexivity|]).
  apply count_in_total.
Qed.

Lemma run_loop_issues_classified r refs st :
  Forall (fun i => severity i = severity_of_score (score i)) (l_issues st) ->
  Forall (fun i => severity i = severity_of_score (score i))
    (l_issues (fold_left (loop_body r) refs st)).
Proof.
  revert st. induction refs as [|ref refs IH]; intros st H; [exact H|].
  cbn [fold_left]. apply IH. unfold loop_body.
  destruct (audits r !! ref_id ref) as [audit|]; [|exact H].
  destruct st as [iss f p m i na]. cbn [l_issues] in H.
  destruct (String.eqb (scoreDisplayMode audit) "manual"); [exact H|].
  destruct (String.eqb (scoreDisplayMode audit) "informative"); [exact H|].
  destruct (String.eqb (scoreDisplayMode audit) "notApplicable"); [exact H|].
  destruct (score_is 1 (audit_score audit)); [exact H|].
  cbn [l_issues]. apply Forall_app. split; [exact H|].
  constructor; [reflexivity | constructor].
Qed.

(** C10.  In every report [runPWAAudit] resolves with, the issues are in
    non-decreasing order of severity rank (critical, serious, moderate,
    minor): they are the issues collected by the loop, stably sorted, the
    very list the recommendations are taken from. *)
Theorem pwa_issues_in_severity_order
    (r : LighthouseResult) (rep : AIOptimizedPWAReport) :
  runPWAAudit (Resolved r) = Resolved rep ->
  StronglySorted
    (fun x y => severityOrder (severity x) <= severityOrder (severity y))
    (issues (content rep))
  /\ exists cat,
       categories r !! "pwa" = Some cat
       /\ Permutation (l_issues (run_loop r (auditRefs cat)))
                      (issues (content rep))
       /\ (forall k,
             List.filter (fun i => severityOrder (severity i) =? k)
                         (issues (content rep))
             = List.filter (fun i => severityOrder (severity i) =? k)
                           (l_issues (run_loop r (auditRefs cat))))
       /\ prioritized_recommendations (content rep)
          = Some (slice0 5 (map recommendation (issues (content rep)))).
Proof.
  intros Hrun.
  destruct (categories r !! "pwa") as [cat|] eqn:Hcat.
  - destruct (runPWAAudit_resolved r cat Hcat) as (rep' & Hrun' & _ & _ & Hi & Hr).
    rewrite Hrun in Hrun'. injection Hrun' as <-.
    split.
    + rewrite Hi.
      apply (sort_ordered by_severity (fun i => severityOrder (severity i))
               by_severity_key).
    + exists cat. split; [reflexivity|]. split; [|split; [|exact Hr]].
      * rewrite Hi. apply sort_perm.
      * intros k. rewrite Hi.
        apply (sort_stable by_severity (fun i => severityOrder (severity i))
                 by_severity_key).
  - unfold runPWAAudit in Hrun. rewrite Hcat in Hrun. discriminate.
Qed.

End PWAFacts.

(* ===================================================================== *)
(** ** The properties on the sample inputs *)
(* ===================================================================== *)

Lemma sample_report_run :
  PWA.runPWAAudit (Resolved Examples.sample_result)
  = Resolved Examples.sample_report.
Proof. vm_compute. reflexivity. Qed.

(** C5, witness: the sample result, with five evaluated entries. *)
Lemma pwa_audit_counts_partition_witness :
  PWA.categories Examples.sample_result !! "pwa" = Some Examples.sample_category
  /\ PWA.runPWAAudit (Resolved Examples.sample_result)
     = Resolved Examples.sample_report
  /\ manual (PWA.audit_counts (PWA.content Examples.sample_report))
     = Spec.count_in Spec.in_manual
         (Spec.evaluated Examples.sample_result
            (PWA.auditRefs Examples.sample_category))
  /\ informative (PWA.audit_counts (PWA.content Examples.sample_report))
     = Spec.count_in Spec.in_informative
         (Spec.evaluated Examples.sample_result
            (PWA.auditRefs Examples.sample_category))
  /\ not_applicable (PWA.audit_counts (PWA.content Examples.sample_report))
     = Spec.count_in Spec.in_not_applicable
         (Spec.evaluated Examples.sample_result
            (PWA.auditRefs Examples.sample_category))
  /\ passed (PWA.audit_counts (PWA.content Examples.sample_report))
     = Spec.count_in Spec.in_passed
         (Spec.evaluated Examples.sample_result
            (PWA.auditRefs Examples.sample_category))
  /\ failed (PWA.audit_counts (PWA.content Examples.sample_report))
     = Spec.count_in Spec.in_failed
         (Spec.evaluated Examples.sample_result
            (PWA.auditRefs Examples.sample_category))
  /\ (failed (PWA.audit_counts (PWA.content Examples.sample_report))
      + passed (PWA.audit_counts (PWA.content Examples.sample_report))
      + manual (PWA.audit_counts (PWA.content Examples.sample_report))
      + informative (PWA.audit_counts (PWA.content Examples.sample_report))
      + not_applicable (PWA.audit_counts (PWA.content Examples.sample_report))
      = length (Spec.evaluated Examples.sample_result
                  (PWA.auditRefs Examples.sample_category)))%nat.
Proof.
  split; [vm_compute; reflexivity|].
  split; [vm_compute; reflexivity|].
  apply (pwa_audit_counts_partition Examples.sample_result
           Examples.sample_category Examples.sample_report);
    vm_compute; reflexivity.
Defined.

(** C10, witness: in the sample result the loop collects the moderate issue
    before the critical one, and the report lists the critical one first. *)
Lemma pwa_issues_in_severity_order_witness :
  PWA.runPWAAudit (Resolved Examples.sample_result)
  = Resolved Examples.sample_report
  /\ map PWA.id
       (PWA.l_issues (PWA.run_loop Examples.sample_result
                        (PWA.auditRefs Examples.sample_category)))
     = ["installable-manifest"; "service-worker"]
  /\ map PWA.id (PWA.issues (PWA.content Examples.sample_report))
     = ["service-worker"; "installable-manifest"]
  /\ StronglySorted
       (fun x y => PWA.severityOrder (PWA.severity x)
                   <= PWA.severityOrder (PWA.severity y))
       (PWA.issues (PWA.content Examples.sample_report))
  /\ exists cat,
       PWA.categories Examples.sample_result !! "pwa" = Some cat
       /\ Permutation (PWA.l_issues (PWA.run_loop Examples.sample_result
                                       (PWA.auditRefs cat)))
                      (PWA.issues (PWA.content Examples.sample_report))
       /\ (forall k,
             List.filter (fun i => PWA.severityOrder (PWA.severity i) =? k)
                         (PWA.issues (PWA.content Examples.sample_report))
             = List.filter (fun i => PWA.severityOrder (PWA.severity i) =? k)
                           (PWA.l_issues (PWA.run_loop Examples.sample_result
                                            (PWA.auditRefs cat))))
       /\ PWA.prioritized_recommendations (PWA.content Examples.sample_report)
          = Some (slice0 5 (map PWA.recommendation
                              (PWA.issues (PWA.content Examples.sample_report)))).
Proof.
  split; [vm_compute; reflexivity|].
  split; [vm_compute; reflexivity|].
  split; [vm_compute; reflexivity|].
  apply (pwa_issues_in_severity_order Examples.sample_result
           Examples.sample_report).
  vm_compute. reflexivity.
Defined.

(** C6, witness: a site served over plain HTTP. *)
Lemma https_migration_ranked_first_witness :
  exists x,
    In x (Analysis.generatePrioritizedActionItems
            Analysis.createEmptyPerformanceReport
            Examples.image_heavy_accessibility
            Analysis.createEmptySEOReport Examples.plain_http_best_practices
            Analysis.createEmptyPWAReport [])
    /\ Analysis.title x = "Migrate to HTTPS"
    /\ Analysis.effort x = Analysis.medium
    /\ Analysis.roi_score x = 95
    /\ (forall c,
          In c (Analysis.action_candidates
                  Analysis.createEmptyPerformanceReport
                  Examples.image_heavy_accessibility
                  Analysis.createEmptySEOReport
                  Examples.plain_http_best_practices
                  Analysis.createEmptyPWAReport) ->
          Analysis.roi_score c <= 95)
    /\ Analysis.rank x = 1%nat
    /\ Analysis.generatePrioritizedActionItems
         Analysis.createEmptyPerformanceReport
         Examples.image_heavy_accessibility
         Analysis.createEmptySEOReport Examples.plain_http_best_practices
         Analysis.createEmptyPWAReport [] !! 0%nat = Some x.
Proof.
  apply (https_migration_ranked_first Analysis.createEmptyPerformanceReport
           Examples.image_heavy_accessibility Analysis.createEmptySEOReport
           Examples.plain_http_best_practices Analysis.createEmptyPWAReport []).
  exists (Analysis.mkBPIssue "is-on-https" critical).
  split; [left; reflexivity | split; reflexivity].
Defined.

(** C7, witness: unoptimised images without alt text. *)
Lemma large_images_insight_once_witness :
  length
    (List.filter
       (fun i => String.eqb (Analysis.insight_id i) "large-images-multi-impact")
       (Analysis.generateCrossCategoryInsights
          Examples.image_heavy_performance Examples.image_heavy_accessibility
          Analysis.createEmptySEOReport Examples.plain_http_best_practices
          Analysis.createEmptyPWAReport)) = 1%nat
  /\ (forall i,
        In i (Analysis.generateCrossCategoryInsights
                Examples.image_heavy_performance
                Examples.image_heavy_accessibility
                Analysis.createEmptySEOReport
                Examples.plain_http_best_practices
                Analysis.createEmptyPWAReport) ->
        Analysis.insight_id i = "large-images-multi-impact" ->
        Analysis.insight_impact i = serious
        /\ Analysis.affected_categories i
           = ["performance"; "accessibility"; "seo"])
  /\ Analysis.generateCrossCategoryInsights
       Examples.image_heavy_performance Examples.image_heavy_accessibility
       Analysis.createEmptySEOReport Examples.plain_http_best_practices
       Analysis.createEmptyPWAReport !! 0%nat
     = Some Analysis.insight_large_images.
Proof.
  apply (proj2 (large_images_insight_once
                  Examples.image_heavy_performance
                  Examples.image_heavy_accessibility
                  Analysis.createEmptySEOReport
                  Examples.plain_http_best_practices
                  Analysis.createEmptyPWAReport)).
  - exists (Analysis.mkOpportunity "uses-optimized-images" serious).
    split; [left; reflexivity | reflexivity].
  - exists (Analysis.mkViolation "image-alt" critical).
    split; [left; reflexivity | reflexivity].
Defined.

(** C8, witness: a colour contrast violation. *)
Lemma color_contrast_quick_win_witness :
  exists q,
    In q (Analysis.generateQuickWins
            Examples.image_heavy_performance Examples.image_heavy_accessibility
            Analysis.createEmptySEOReport Examples.plain_http_best_practices
            Analysis.createEmptyPWAReport)
    /\ Analysis.qw_title q = "Fix color contrast issues"
    /\ Analysis.qw_category q = "accessibility".
Proof.
  apply (proj2 (proj2 (color_contrast_quick_win
                         Examples.image_heavy_performance
                         Examples.image_heavy_accessibility
                         Analysis.createEmptySEOReport
                         Examples.plain_http_best_practices
                         Analysis.createEmptyPWAReport))).
  exists (Analysis.mkViolation "color-contrast" serious).
  split; [right; left; reflexivity | reflexivity].
Defined.

(* ===================================================================== *)
(** ** More on the PWA adapter *)
(* ===================================================================== *)

Section PWAOutcome.
Import PWA.

(** X1.  [runPWAAudit] rejects in two cases only, and always with the
    prefix "PWA audit failed: ": when the engine rejected, with the
    engine's message after the prefix, and when the result has no "pwa"
    category, with "PWA category not found in Lighthouse result" after
    it.  In every other case it resolves with a report of category
    "pwa". *)
Theorem runPWAAudit_outcomes :
  (forall msg, runPWAAudit (Rejected msg)
               = Rejected ("PWA audit failed: " +:+ msg))
  /\ (forall r,
        categories r !! "pwa" = None
        <-> runPWAAudit (Resolved r)
            = Rejected "PWA audit failed: PWA category not found in Lighthouse result")
  /\ (forall r,
        is_Some (categories r !! "pwa")
        <-> exists rep, runPWAAudit (Resolved r) = Resolved rep)
  /\ (forall engine rep,
        runPWAAudit engine = Resolved rep -> category rep = "pwa").
Proof.
  split; [reflexivity|]. split; [|split].
  - intros r. unfold runPWAAudit.
    destruct (categories r !! "pwa"); split; try discriminate; reflexivity.
  - intros r. unfold runPWAAudit.
    destruct (categories r !! "pwa") as [cat|]; split.
    + intros _. eexists. reflexivity.
    + intros _. eauto.
    + intros [x Hx]. discriminate.
    + intros [rep H]. discriminate.
  - intros [r|msg] rep; unfold runPWAAudit; [|discriminate].
    destruct (categories r !! "pwa"); [|discriminate].
    intros [= <-]. reflexivity.
Qed.

End PWAOutcome.

Section Installability.
Import PWA.

(** X2.  The installability analysis: a site is installable exactly when
    it has a manifest and a service worker; each of the three "missing"
    messages is listed exactly when its flag is false; there are at most
    five messages and none is listed twice. *)
Theorem installability_issues_match_flags (r : LighthouseResult) :
  is_installable (analyze_installability r)
  = has_manifest (analyze_installability r)
    && has_service_worker (analyze_installability r)
  /\ (In "Missing or invalid web app manifest (manifest.json)"
         (installability_issues (analyze_installability r))
      <-> has_manifest (analyze_installability r) = false)
  /\ (In "No service worker registered (required for offline support)"
         (installability_issues (analyze_installability r))
      <-> has_service_worker (analyze_installability r) = false)
  /\ (In "Missing app icons (required for installation)"
         (installability_issues (analyze_installability r))
      <-> has_icons (analyze_installability r) = false)
  /\ (length (installability_issues (analyze_installability r)) <= 5)%nat
  /\ NoDup (installability_issues (analyze_installability r)).
Proof.
  unfold analyze_installability.
  destruct (scores_one (audits r !! "installable-manifest")),
    (scores_one (audits r !! "service-worker")),
    (scores_one (audits r !! "apple-touch-icon")),
    (present_not_one (audits r !! "splash-screen")),
    (present_not_one (audits r !! "themed-omnibox"));
    cbn [is_installable has_manifest has_service_worker has_icons
         installability_issues push_if negb andb app length].
  all: split; [reflexivity|].
  all: repeat (split; [cbn [In]; split; [intros H; repeat (destruct H as [H|H]; [try discriminate H; try reflexivity|]); try destruct H; try reflexivity | try discriminate; intros _; tauto]|]).
  all: split; [lia|].
  all: repeat (constructor; [cbn [In]; intros H; repeat (destruct H as [H|H]; [discriminate H|]); destruct H|]).
  all: constructor.
Qed.

End Installability.

Lemma seventy_bits : of_Z 70 = S754_finite false 4925812092436480 (-46).
Proof. vm_compute. reflexivity. Qed.

Lemma ninety_bits : of_Z 90 = S754_finite false 6333186975989760 (-46).
Proof. vm_compute. reflexivity. Qed.

(** A number that is at least 90 is at least 70. *)
Lemma at_least_ninety x : JS.ge x (of_Z 90) = true -> JS.ge x (of_Z 70) = true.
Proof.
  rewrite seventy_bits, ninety_bits. unfold JS.ge, SFleb.
  destruct x as [s|[|]| |[|] m e]; cbn [SFcompare]; try discriminate;
    try reflexivity.
  destruct (Z.compare_spec (-46) e) as [<-|H|H]; try discriminate.
  - rewrite !Pos.compare_cont_spec. cbn [Pos.switch_Eq].
    destruct (Pos.compare_spec 6333186975989760 m) as [E|E|E];
      try discriminate; intros _.
    + subst m. reflexivity.
    + destruct (Pos.compare_spec 4925812092436480 m) as [E'|E'|E'];
        try reflexivity; exfalso.
      pose proof (Pos.lt_trans _ _ _ E E') as F. vm_compute in F. discriminate.
  - reflexivity.
Qed.

Section PWAReport.
Import PWA.

(** X3.  The capability flags of a PWA report: the installability block
    is the one computed from the result; offline support is the
    service-worker flag, so an installable site has offline support; a
    report that is optimized (score at least 90) is also fast and reliable
    (score at least 70). *)
Theorem pwa_report_capabilities
    (r : LighthouseResult) (rep : AIOptimizedPWAReport) :
  runPWAAudit (Resolved r) = Resolved rep ->
  installability (content rep) = analyze_installability r
  /\ offline_support (content rep)
     = has_service_worker (installability (content rep))
  /\ (is_installable (installability (content rep)) = true ->
      offline_support (content rep) = true)
  /\ fast_reliable (content rep) = JS.ge (content_score (content rep)) (of_Z 70)
  /\ optimized (content rep) = JS.ge (content_score (content rep)) (of_Z 90)
  /\ (optimized (content rep) = true -> fast_reliable (content rep) = true).
Proof.
  unfold runPWAAudit. destruct (categories r !! "pwa") as [cat|]; [|discriminate].
  intros [= <-]. cbn [content installability offline_support fast_reliable
                      optimized content_score].
  split; [reflexivity|]. split; [reflexivity|].
  split; [|split; [reflexivity|split; [reflexivity|apply at_least_ninety]]].
  unfold analyze_installability. cbn [is_installable].
  intros H. apply andb_prop in H. tauto.
Qed.

(** What the loop keeps true of the issues it has collected from the
    references [seen]. *)
Lemma loop_body_issue r (P : PWAIssue -> Prop) ref st :
  (forall audit,
      audits r !! ref_id ref = Some audit ->
      Spec.classify audit = Spec.in_failed ->
      P (mkIssue (ref_id ref) (audit_title audit) (audit_description audit)
           (audit_score audit) (severity_of_score (audit_score audit)))) ->
  Forall P (l_issues st) /\ length (l_issues st) = failedCount st ->
  Forall P (l_issues (loop_body r st ref))
  /\ length (l_issues (loop_body r st ref)) = failedCount (loop_body r st ref).
Proof.
  intros HP [H L]. unfold loop_body.
  destruct (audits r !! ref_id ref) as [audit|]; [|now split].
  specialize (HP audit eq_refl). unfold Spec.classify in HP.
  destruct st as [iss f p m i na]. cbn [l_issues failedCount] in *.
  destruct (String.eqb (scoreDisplayMode audit) "manual"); [now split|].
  destruct (String.eqb (scoreDisplayMode audit) "informative"); [now split|].
  destruct (String.eqb (scoreDisplayMode audit) "notApplicable"); [now split|].
  destruct (score_is 1 (audit_score audit)); [now split|].
  cbn [l_issues failedCount]. split.
  - apply Forall_app. split; [exact H|]. constructor; [now apply HP|constructor].
  - rewrite length_app. cbn [length]. lia.
Qed.

Lemma run_loop_issues r (P : PWAIssue -> Prop) refs :
  (forall ref audit,
      In ref refs ->
      audits r !! ref_id ref = Some audit ->
      Spec.classify audit = Spec.in_failed ->
      P (mkIssue (ref_id ref) (audit_title audit) (audit_description audit)
           (audit_score audit) (severity_of_score (audit_score audit)))) ->
  Forall P (l_issues (run_loop r refs))
  /\ length (l_issues (run_loop r refs)) = failedCount (run_loop r refs).
Proof.
  intros HP. unfold run_loop.
  assert (H0 : Forall P (l_issues loop_init)
               /\ length (l_issues loop_init) = failedCount loop_init)
    by (split; [constructor | reflexivity]).
  revert H0. generalize loop_init as st.
  induction refs as [|ref refs IH]; intros st H0; [exact H0|].
  cbn [fold_left]. apply IH.
  - intros ref' audit Hin. apply HP. now right.
  - apply loop_body_issue; [|exact H0]. intros audit. apply HP. now left.
Qed.

(** X4.  Every issue of a PWA report stems from a failed audit the
    category refers to: it carries the reference's id, the audit's title,
    description and score, and the severity the score gives; its score is
    not 1.  There are as many issues as failed audits, and the
    recommendations are the first five issues, or all when there are
    fewer. *)
Theorem pwa_issues_are_failed_audits
    (r : LighthouseResult) (cat : Category) (rep : AIOptimizedPWAReport) :
  categories r !! "pwa" = Some cat ->
  runPWAAudit (Resolved r) = Resolved rep ->
  Forall (Derived.issue_of_failed_audit r cat) (issues (content rep))
  /\ Forall (fun i => severity i = severity_of_score (score i)
                      /\ score_is 1 (score i) = false)
       (issues (content rep))
  /\ length (issues (content rep)) = failed (audit_counts (content rep))
  /\ exists recs,
       prioritized_recommendations (content rep) = Some recs
       /\ length recs = Nat.min 5 (failed (audit_counts (content rep)))
       /\ forall (k : nat) i,
            (k < 5)%nat -> issues (content rep) !! k = Some i ->
            recs !! k = Some (toUpperCase (severity_text (severity i))
                              +:+ ": " +:+ title i).
Proof.
  intros Hcat Hrun.
  destruct (runPWAAudit_resolved r cat Hcat) as (rep' & Hrun' & _ & Hc & Hi & Hr).
  rewrite Hrun in Hrun'. injection Hrun' as <-.
  assert (Hperm := sort_perm by_severity (l_issues (run_loop r (auditRefs cat)))).
  rewrite <- Hi in Hperm.
  destruct (run_loop_issues r (Derived.issue_of_failed_audit r cat) (auditRefs cat))
    as [F L].
  { intros ref audit Hin Ha Hf. exists ref, audit. auto. }
  assert (F' : Forall (Derived.issue_of_failed_audit r cat) (issues (content rep))).
  { rewrite Forall_forall in *. intros i Hin. apply F.
    eapply Permutation_in; [symmetry; exact Hperm | exact Hin]. }
  assert (Hlen : length (issues (content rep))
                 = failed (audit_counts (content rep))).
  { rewrite <- (Permutation_length Hperm), L, Hc. reflexivity. }
  split; [exact F'|]. split; [|split; [exact Hlen|]].
  - eapply Forall_impl; [|exact F'].
    intros i (ref & audit & _ & _ & Hf & ->). cbn [severity score].
    split; [reflexivity|]. unfold Spec.classify in Hf.
    destruct (String.eqb (scoreDisplayMode audit) "manual"); [discriminate|].
    destruct (String.eqb (scoreDisplayMode audit) "informative"); [discriminate|].
    destruct (String.eqb (scoreDisplayMode audit) "notApplicable"); [discriminate|].
    destruct (score_is 1 (audit_score audit)); [discriminate|reflexivity].
  - eexists. split; [exact Hr|]. split.
    + unfold slice0. rewrite length_take, length_map, Hlen. reflexivity.
    + intros k i Hk Hik. unfold slice0.
      rewrite lookup_take_lt by assumption.
      change (map recommendation (issues (content rep)))
        with (recommendation <$> issues (content rep)).
      rewrite list_lookup_fmap, Hik. reflexivity.
Qed.

End PWAReport.

Section PWALoop.
Import PWA.

Lemma loop_join_init st : Derived.loop_join st loop_init = st.
Proof.
  destruct st as [iss f p m i na]. unfold Derived.loop_join, loop_init.
  cbn [l_issues failedCount passedCount manualCount informativeCount
       notApplicableCount].
  rewrite app_nil_r, !Nat.add_0_r. reflexivity.
Qed.

Lemma loop_join_assoc a b c :
  Derived.loop_join (Derived.loop_join a b) c = Derived.loop_join a (Derived.loop_join b c).
Proof.
  unfold Derived.loop_join.
  cbn [l_issues failedCount passedCount manualCount informativeCount
       notApplicableCount].
  rewrite <- app_assoc, <- !Nat.add_assoc. reflexivity.
Qed.

Lemma loop_body_join r st ref :
  loop_body r st ref = Derived.loop_join st (loop_body r loop_init ref).
Proof.
  unfold loop_body.
  destruct (audits r !! ref_id ref) as [audit|];
    [|symmetry; apply loop_join_init].
  destruct st as [iss f p m i na]. unfold loop_init.
  destruct (String.eqb (scoreDisplayMode audit) "manual");
    [unfold Derived.loop_join; cbn; rewrite app_nil_r, !Nat.add_0_r, ?Nat.add_1_r;
     reflexivity|].
  destruct (String.eqb (scoreDisplayMode audit) "informative");
    [unfold Derived.loop_join; cbn; rewrite app_nil_r, !Nat.add_0_r, ?Nat.add_1_r;
     reflexivity|].
  destruct (String.eqb (scoreDisplayMode audit) "notApplicable");
    [unfold Derived.loop_join; cbn; rewrite app_nil_r, !Nat.add_0_r, ?Nat.add_1_r;
     reflexivity|].
  destruct (score_is 1 (audit_score audit));
    unfold Derived.loop_join; cbn; rewrite ?app_nil_r, !Nat.add_0_r, ?Nat.add_1_r;
    reflexivity.
Qed.

Lemma fold_loop_join r refs st :
  fold_left (loop_body r) refs st = Derived.loop_join st (run_loop r refs).
Proof.
  unfold run_loop. revert st.
  induction refs as [|ref refs IH]; intros st; cbn [fold_left].
  - symmetry. apply loop_join_init.
  - rewrite IH, (IH (loop_body r loop_init ref)), <- loop_join_assoc.
    now rewrite <- loop_body_join.
Qed.

(** X5.  The loop treats every reference on its own: the state reached on
    two reference lists one after the other is the state of the first
    followed by that of the second, that is the issues of the first list
    followed by those of the second, and counters that add up. *)
Theorem run_loop_app (r : LighthouseResult) (refs1 refs2 : list AuditRef) :
  l_issues (run_loop r (refs1 ++ refs2))
  = l_issues (run_loop r refs1) ++ l_issues (run_loop r refs2)
  /\ failedCount (run_loop r (refs1 ++ refs2))
     = (failedCount (run_loop r refs1) + failedCount (run_loop r refs2))%nat
  /\ passedCount (run_loop r (refs1 ++ refs2))
     = (passedCount (run_loop r refs1) + passedCount (run_loop r refs2))%nat
  /\ manualCount (run_loop r (refs1 ++ refs2))
     = (manualCount (run_loop r refs1) + manualCount (run_loop r refs2))%nat
  /\ informativeCount (run_loop r (refs1 ++ refs2))
     = (informativeCount (run_loop r refs1)
        + informativeCount (run_loop r refs2))%nat
  /\ notApplicableCount (run_loop r (refs1 ++ refs2))
     = (notApplicableCount (run_loop r refs1)
        + notApplicableCount (run_loop r refs2))%nat.
Proof.
  assert (E : run_loop r (refs1 ++ refs2)
              = Derived.loop_join (run_loop r refs1) (run_loop r refs2)).
  { unfold run_loop at 1. rewrite fold_left_app.
    fold (run_loop r refs1). apply fold_loop_join. }
  rewrite E. repeat split.
Qed.

Lemma loop_body_agree r1 r2 st ref :
  audits r1 !! ref_id ref = audits r2 !! ref_id ref ->
  loop_body r1 st ref = loop_body r2 st ref.
Proof. intros H. unfold loop_body. now rewrite H. Qed.

(** X6.  Only the audits the category refers to matter: two results that
    hold the same audit under every referenced id, and the same "pwa"
    category, the same category score and the same five installability
    audits, give the same report. *)
Theorem runPWAAudit_reads_referenced_audits
    (r1 r2 : LighthouseResult) (cat : Category) :
  categories r1 !! "pwa" = Some cat ->
  categories r2 !! "pwa" = Some cat ->
  (forall ref, In ref (auditRefs cat) ->
               audits r1 !! ref_id ref = audits r2 !! ref_id ref) ->
  (forall i, In i ["installable-manifest"; "service-worker"; "apple-touch-icon";
                   "splash-screen"; "themed-omnibox"] ->
             audits r1 !! i = audits r2 !! i) ->
  runPWAAudit (Resolved r1) = runPWAAudit (Resolved r2).
Proof.
  intros H1 H2 Hrefs Hinst. unfold runPWAAudit. rewrite H1, H2.
  assert (Hloop : run_loop r1 (auditRefs cat) = run_loop r2 (auditRefs cat)).
  { unfold run_loop. generalize loop_init as st.
    induction (auditRefs cat) as [|ref refs IH]; intros st; [reflexivity|].
    cbn [fold_left]. rewrite (loop_body_agree r1 r2).
    - apply IH. intros ref' Hin. apply Hrefs. now right.
    - apply Hrefs. now left. }
  assert (Hi : analyze_installability r1 = analyze_installability r2).
  { unfold analyze_installability.
    rewrite !(Hinst "installable-manifest"), !(Hinst "service-worker"),
      !(Hinst "apple-touch-icon"), !(Hinst "splash-screen"),
      !(Hinst "themed-omnibox") by (cbn [In]; tauto).
    reflexivity. }
  cbv zeta. rewrite Hloop, Hi, (Hinst "service-worker") by (cbn [In]; tauto).
  reflexivity.
Qed.

End PWALoop.

(** X3, witness: the sample result. *)
Lemma pwa_report_capabilities_witness :
  PWA.installability (PWA.content Examples.sample_report)
  = PWA.analyze_installability Examples.sample_result
  /\ PWA.offline_support (PWA.content Examples.sample_report)
     = PWA.has_service_worker
         (PWA.installability (PWA.content Examples.sample_report))
  /\ (PWA.is_installable
        (PWA.installability (PWA.content Examples.sample_report)) = true ->
      PWA.offline_support (PWA.content Examples.sample_report) = true)
  /\ PWA.fast_reliable (PWA.content Examples.sample_report)
     = JS.ge (PWA.content_score (PWA.content Examples.sample_report)) (of_Z 70)
  /\ PWA.optimized (PWA.content Examples.sample_report)
     = JS.ge (PWA.content_score (PWA.content Examples.sample_report)) (of_Z 90)
  /\ (PWA.optimized (PWA.content Examples.sample_report) = true ->
      PWA.fast_reliable (PWA.content Examples.sample_report) = true).
Proof.
  apply (pwa_report_capabilities Examples.sample_result Examples.sample_report).
  vm_compute. reflexivity.
Defined.

(** X4, witness: the sample result, with two failed audits. *)
Lemma pwa_issues_are_failed_audits_witness :
  Forall (Derived.issue_of_failed_audit Examples.sample_result
            Examples.sample_category)
    (PWA.issues (PWA.content Examples.sample_report))
  /\ Forall (fun i => PWA.severity i = PWA.severity_of_score (PWA.score i)
                      /\ PWA.score_is 1 (PWA.score i) = false)
       (PWA.issues (PWA.content Examples.sample_report))
  /\ length (PWA.issues (PWA.content Examples.sample_report))
     = failed (PWA.audit_counts (PWA.content Examples.sample_report))
  /\ exists recs,
       PWA.prioritized_recommendations (PWA.content Examples.sample_report)
       = Some recs
       /\ length recs
          = Nat.min 5 (failed (PWA.audit_counts
                                 (PWA.content Examples.sample_report)))
       /\ forall (k : nat) i,
            (k < 5)%nat ->
            PWA.issues (PWA.content Examples.sample_report) !! k = Some i ->
            recs !! k = Some (toUpperCase (severity_text (PWA.severity i))
                              +:+ ": " +:+ PWA.title i).
Proof.
  apply (pwa_issues_are_failed_audits Examples.sample_result
           Examples.sample_category Examples.sample_report);
    vm_compute; reflexivity.
Defined.

(** X6, witness: an audit nothing refers to is added to the sample
    result. *)
Lemma runPWAAudit_reads_referenced_audits_witness :
  PWA.runPWAAudit (Resolved Examples.sample_result)
  = PWA.runPWAAudit (Resolved Derived.sample_result_more).
Proof.
  apply (runPWAAudit_reads_referenced_audits Examples.sample_result
           Derived.sample_result_more Examples.sample_category).
  - vm_compute. reflexivity.
  - vm_compute. reflexivity.
  - intros ref Hin. cbn [Examples.sample_category PWA.auditRefs In] in Hin.
    repeat (destruct Hin as [<-|Hin]; [vm_compute; reflexivity|]).
    destruct Hin.
  - intros i Hin. cbn [In] in Hin.
    repeat (destruct Hin as [<-|Hin]; [vm_compute; reflexivity|]).
    destruct Hin.
Defined.

(* ===================================================================== *)
(** ** More on the analysis *)
(* ===================================================================== *)

Section SummaryAndInsights.
Import Analysis.

Lemma count_critical_le {A} (sev : A -> Severity) l :
  (count_critical sev l <= length l)%nat.
Proof. unfold count_critical. apply filter_length_le. Qed.

(** X7.  The summary: the total of audits is the passed ones plus the
    failed ones (manual, informative and not applicable audits are not
    counted), the issues are the opportunities, violations and issues of
    the five reports, and the critical ones are among them. *)
Theorem summary_totals
    (p : PerformanceReportContent) (a : AccessibilityReportContent)
    (s : SEOReportContent) (b : BestPracticesReportContent)
    (w : PWA.PWAReportContent) :
  total_audits (calculateSummary p a s b w)
  = (passed_audits (calculateSummary p a s b w)
     + failed_audits (calculateSummary p a s b w))%nat
  /\ total_issues (calculateSummary p a s b w)
     = (length (opportunities p) + length (violations a)
        + length (seo_issues s) + length (bp_issues b)
        + length (PWA.issues w))%nat
  /\ (critical_issues (calculateSummary p a s b w)
      <= total_issues (calculateSummary p a s b w))%nat
  /\ calculateSummary createEmptyPerformanceReport
       createEmptyAccessibilityReport createEmptySEOReport
       createEmptyBestPracticesReport createEmptyPWAReport
     = mkSummary 0 0 0 0 0.
Proof.
  unfold calculateSummary.
  cbn [total_audits passed_audits failed_audits total_issues critical_issues].
  split; [lia|]. split; [reflexivity|]. split; [|reflexivity].
  pose proof (count_critical_le opp_impact (opportunities p)).
  pose proof (count_critical_le viol_impact (violations a)).
  pose proof (count_critical_le seo_issue_impact (seo_issues s)).
  pose proof (count_critical_le bp_issue_severity (bp_issues b)).
  pose proof (count_critical_le PWA.severity (PWA.issues w)).
  lia.
Qed.

(** X8.  When all five adapters reject, the analysis still resolves: all
    scores and the summary are 0, the reports are the empty ones and
    there is no quick win, but the lists are not all empty: the empty PWA
    report is not installable, so the PWA insight and the PWA action item
    are emitted. *)
Theorem all_adapters_failed (url now m1 m2 m3 m4 m5 : string) :
  runComprehensiveSiteAnalysis url now (Rejected m1) (Rejected m2)
    (Rejected m3) (Rejected m4) (Rejected m5)
  = Resolved
      (mkAnalysis url now (of_Z 0)
         (mkScores (of_Z 0) (of_Z 0) (of_Z 0) (of_Z 0) (of_Z 0))
         createEmptyPerformanceReport createEmptyAccessibilityReport
         createEmptySEOReport createEmptyBestPracticesReport
         createEmptyPWAReport
         [insight_pwa] [action_pwa 1] [] (mkSummary 0 0 0 0 0)).
Proof. vm_compute. reflexivity. Qed.

Lemma fire_In {A} (table : list (bool * A)) x :
  In x (Spec.fire table) <-> In (true, x) table.
Proof.
  unfold Spec.fire. rewrite in_map_iff. split.
  - intros ([c y] & <- & H). apply filter_In in H as [H Hc].
    cbn in Hc. now subst c.
  - intros H. exists (true, x). split; [reflexivity|].
    apply filter_In. now split.
Qed.

Lemma fire_NoDup {A B} (f : A -> B) (table : list (bool * A)) :
  NoDup (map f (map snd table)) -> NoDup (map f (Spec.fire table)).
Proof.
  unfold Spec.fire. induction table as [|[c x] table IH]; cbn; [constructor|].
  intros H. inversion H as [|? ? Hx Hn]; subst.
  destruct c; cbn; [|now apply IH]. constructor; [|now apply IH].
  intros Hin. apply Hx. clear -Hin.
  induction table as [|[c y] table IH]; cbn in *; [assumption|].
  destruct c; cbn in *; tauto.
Qed.

(** X9.  Each of the five insights is emitted exactly when its own rule
    holds; at most five insights are emitted and no id occurs twice. *)
Theorem insights_characterised
    (p : PerformanceReportContent) (a : AccessibilityReportContent)
    (s : SEOReportContent) (b : BestPracticesReportContent)
    (w : PWA.PWAReportContent) :
  (In insight_large_images (generateCrossCategoryInsights p a s b w)
   <-> cond_large_images p a = true)
  /\ (In insight_mobile (generateCrossCategoryInsights p a s b w)
      <-> cond_mobile p s = true)
  /\ (In insight_pwa (generateCrossCategoryInsights p a s b w)
      <-> cond_pwa p w = true)
  /\ (In insight_https (generateCrossCategoryInsights p a s b w)
      <-> cond_https b s = true)
  /\ (In insight_semantic (generateCrossCategoryInsights p a s b w)
      <-> cond_semantic a s = true)
  /\ (length (generateCrossCategoryInsights p a s b w) <= 5)%nat
  /\ NoDup (map insight_id (generateCrossCategoryInsights p a s b w)).
Proof.
  rewrite insights_in_table_order.
  assert (D : forall x y : CrossCategoryInsight,
             String.eqb (insight_id x) (insight_id y) = false -> x <> y).
  { intros x y H ->. now rewrite String.eqb_refl in H. }
  repeat (split;
    [rewrite fire_In; unfold Spec.insight_table; cbn [In];
     split;
     [intros H;
      repeat (destruct H as [H|H];
              [apply pair_equal_spec in H as [H1 H2];
               first [ exfalso; revert H2; apply D; vm_compute; reflexivity
                     | exact H1 ]|]);
      destruct H
     | intros ->; tauto]|]).
  split.
  - exact (fire_length (Spec.insight_table p a s b w)).
  - apply fire_NoDup. cbn [Spec.insight_table map snd].
    repeat (constructor; [cbn [In]; intros H;
                          repeat (destruct H as [H|H]; [discriminate H|]);
                          destruct H|]).
    constructor.
Qed.

End SummaryAndInsights.

Section QuickWinsAndActions.
Import Analysis.

(** X10.  Each of the six quick wins is emitted exactly when the issue,
    violation or opportunity of its rule is present; no title occurs
    twice. *)
Theorem quick_wins_characterised
    (p : PerformanceReportContent) (a : AccessibilityReportContent)
    (s : SEOReportContent) (b : BestPracticesReportContent)
    (w : PWA.PWAReportContent) :
  (In qw_meta_description (generateQuickWins p a s b w)
   <-> exists x, In x (seo_issues s) /\ seo_issue_id x = "meta-description")
  /\ (In qw_image_alt (generateQuickWins p a s b w)
      <-> exists v, In v (violations a) /\ viol_id v = "image-alt")
  /\ (In qw_text_compression (generateQuickWins p a s b w)
      <-> exists o, In o (opportunities p)
                    /\ opp_id o = "uses-text-compression")
  /\ (In qw_viewport (generateQuickWins p a s b w)
      <-> exists x, In x (seo_issues s) /\ seo_issue_id x = "viewport")
  /\ (In qw_document_title (generateQuickWins p a s b w)
      <-> exists x, In x (seo_issues s) /\ seo_issue_id x = "document-title")
  /\ (In qw_color_contrast (generateQuickWins p a s b w)
      <-> exists v, In v (violations a) /\ viol_id v = "color-contrast")
  /\ NoDup (map qw_title (generateQuickWins p a s b w)).
Proof.
  rewrite quick_wins_untruncated.
  rewrite <- !has_seo_issue_In, <- !has_violation_In, <- has_opportunity_In.
  assert (D : forall x y : QuickWin,
             String.eqb (qw_title x) (qw_title y) = false -> x <> y).
  { intros x y H ->. now rewrite String.eqb_refl in H. }
  repeat (split;
    [rewrite fire_In; unfold Spec.quick_win_table; cbn [In];
     split;
     [intros H;
      repeat (destruct H as [H|H];
              [apply pair_equal_spec in H as [H1 H2];
               first [ exfalso; revert H2; apply D; vm_compute; reflexivity
                     | exact H1 ]|]);
      destruct H
     | intros ->; tauto]|]).
  apply fire_NoDup. cbn [Spec.quick_win_table map snd].
  repeat (constructor; [cbn [In]; intros H;
                        repeat (destruct H as [H|H]; [discriminate H|]);
                        destruct H|]).
  constructor.
Qed.

Lemma candidates_ranked p a s b w :
  imap (fun index item => set_rank (index + 1) item) (action_candidates p a s b w)
  = action_candidates p a s b w
  /\ (length (action_candidates p a s b w) <= 5)%nat
  /\ map rank (action_candidates p a s b w)
     = List.seq 1 (length (action_candidates p a s b w))
  /\ StronglySorted (fun x y => roi_score y < roi_score x)
       (action_candidates p a s b w).
Proof.
  unfold action_candidates.
  destruct (gate_https b), (gate_lcp p),
    (Nat.ltb 0 (length (criticalA11yIssues a))),
    (has_seo_issue "meta-description" s), (gate_pwa w);
    cbn [push_if app length Nat.add];
    (split; [reflexivity|]); (split; [lia|]); (split; [reflexivity|]);
    repeat (constructor;
            cbn [roi_score action_https action_lcp action_a11y action_meta
                 action_pwa]);
    lia.
Qed.

Lemma action_items_unchanged p a s b w insights :
  generatePrioritizedActionItems p a s b w insights
  = action_candidates p a s b w.
Proof.
  destruct (candidates_ranked p a s b w) as (Hr & Hl & _).
  unfold generatePrioritizedActionItems, rank_and_truncate, slice0.
  rewrite candidates_sorted_already, Hr. apply take_ge. lia.
Qed.

(** X11.  Sorting and renumbering change nothing: the candidates are
    pushed in strictly descending order of ROI, each with the rank of its
    position, and there are at most five of them, so the action items
    returned are exactly the candidates as pushed, with ranks 1, 2, ... *)
Theorem action_items_are_the_candidates
    (p : PerformanceReportContent) (a : AccessibilityReportContent)
    (s : SEOReportContent) (b : BestPracticesReportContent)
    (w : PWA.PWAReportContent) (insights : list CrossCategoryInsight) :
  generatePrioritizedActionItems p a s b w insights
  = action_candidates p a s b w
  /\ (length (generatePrioritizedActionItems p a s b w insights) <= 5)%nat
  /\ map rank (generatePrioritizedActionItems p a s b w insights)
     = List.seq 1 (length (generatePrioritizedActionItems p a s b w insights))
  /\ StronglySorted (fun x y => roi_score y < roi_score x)
       (generatePrioritizedActionItems p a s b w insights).
Proof.
  destruct (candidates_ranked p a s b w) as (Hr & Hl & Hk & Hs).
  rewrite (action_items_unchanged p a s b w insights). auto.
Qed.

(** X12.  A missing meta description is reported twice, consistently: the
    action item "Add meta descriptions" and the quick win
    "Add meta description" are both emitted when the SEO issues hold id
    "meta-description", and neither is emitted otherwise. *)
Theorem meta_description_action_and_quick_win
    (p : PerformanceReportContent) (a : AccessibilityReportContent)
    (s : SEOReportContent) (b : BestPracticesReportContent)
    (w : PWA.PWAReportContent) (insights : list CrossCategoryInsight) :
  ((exists x, In x (generatePrioritizedActionItems p a s b w insights)
              /\ title x = "Add meta descriptions")
   <-> exists i, In i (seo_issues s) /\ seo_issue_id i = "meta-description")
  /\ ((exists q, In q (generateQuickWins p a s b w)
                 /\ qw_title q = "Add meta description")
      <-> exists i, In i (seo_issues s) /\ seo_issue_id i = "meta-description").
Proof.
  rewrite <- has_seo_issue_In. split.
  - rewrite (action_items_unchanged p a s b w insights).
    transitivity (existsb (fun x => String.eqb (title x) "Add meta descriptions")
                    (action_candidates p a s b w) = true).
    { rewrite existsb_exists. split; intros (x & Hin & Ht); exists x;
        (split; [assumption|]); now apply String.eqb_eq. }
    unfold action_candidates.
    destruct (gate_https b), (gate_lcp p),
      (Nat.ltb 0 (length (criticalA11yIssues a))),
      (has_seo_issue "meta-description" s), (gate_pwa w);
      cbn [push_if app length Nat.add]; split; intros H;
      first [reflexivity | vm_compute in H; discriminate H].
  - rewrite quick_wins_untruncated. split.
    + intros (q & Hin & Ht). apply fire_In in Hin.
      unfold Spec.quick_win_table in Hin. cbn [In] in Hin.
      repeat (destruct Hin as [Hin|Hin];
              [apply pair_equal_spec in Hin as [H1 <-];
               first [exact H1 | exfalso; vm_compute in Ht; discriminate Ht]|]).
      destruct Hin.
    + intros H. exists qw_meta_description. split; [|reflexivity].
      apply fire_In. unfold Spec.quick_win_table. rewrite H. now left.
Qed.

End QuickWinsAndActions.

Section CategoryScores.
Import Analysis.

(** X13.  The fallback [score || 0]: a category score is 0 exactly when
    the adapter rejected or its score is falsy (0, -0 or NaN); otherwise
    it is the adapter's score.  So an entry of [category_scores] is never
    NaN and never -0. *)
Theorem score_fallback {A : Type} (sc : A -> number) (o : Outcome A)
    (path : A -> A) :
  (score_or_zero sc (caught path o) = of_Z 0
   <-> (exists msg, o = Rejected msg)
       \/ exists c, o = Resolved c /\ truthy (sc (path c)) = false)
  /\ (forall c, o = Resolved c -> truthy (sc (path c)) = true ->
                score_or_zero sc (caught path o) = sc (path c))
  /\ score_or_zero sc (caught path o) <> S754_nan
  /\ score_or_zero sc (caught path o) <> S754_zero true.
Proof.
  destruct o as [c|msg]; cbn [caught score_or_zero]; unfold or_zero.
  - destruct (truthy (sc (path c))) eqn:T.
    + split; [|split; [|split]].
      * split.
        -- intros E. rewrite E in T. vm_compute in T. discriminate T.
        -- intros [[msg H]|(c' & [= <-] & H)]; [discriminate H | congruence].
      * intros c' [= <-] _. reflexivity.
      * intros E. rewrite E in T. vm_compute in T. discriminate T.
      * intros E. rewrite E in T. vm_compute in T. discriminate T.
    + split; [|split; [|split]]; try discriminate.
      * split; [eauto | reflexivity].
      * intros c' [= <-] H. congruence.
  - split; [|split; [|split]]; try discriminate.
    split; [eauto | reflexivity].
Qed.

(** X14.  The overall score stays within the category scores: for integer
    scores in 0..100 that all lie between [lo] and [hi], the overall score
    is an integer between [lo] and [hi]; in particular five equal scores
    give that score. *)
Theorem overall_score_between (lo hi p a s b w : Z) :
  0 <= lo -> hi <= 100 ->
  lo <= p <= hi -> lo <= a <= hi -> lo <= s <= hi -> lo <= b <= hi ->
  lo <= w <= hi ->
  exists n,
    compute_overall_score
      (mkScores (of_Z p) (of_Z a) (of_Z s) (of_Z b) (of_Z w)) = of_Z n
    /\ lo <= n <= hi.
Proof.
  intros Hlo Hhi Hp Ha Hs Hb Hw.
  assert (N := weighted_sum_nearest p a s b w).
  unfold ScoreTable.nearest_ok in N.
  destruct (ScoreTable.rounds_to _) as [n|] eqn:R;
    [|exfalso; assert (false = true) by (apply N; lia); discriminate].
  apply rounds_to_sound in R. exists n. split; [exact R|].
  assert (N' : (n =? (6 * p + 5 * a + 5 * s + 3 * b + 1 * w + 10) / 20)
               || ((6 * p + 5 * a + 5 * s + 3 * b + 1 * w) mod 20 =? 10)
                  && (n =? (6 * p + 5 * a + 5 * s + 3 * b + 1 * w + 10) / 20 - 1)
               = true) by (apply N; lia).
  clear N R.
  set (k := 6 * p + 5 * a + 5 * s + 3 * b + 1 * w) in *.
  assert (Hk : 20 * lo <= k <= 20 * hi) by (unfold k; lia).
  apply orb_prop in N' as [N'|N'].
  - apply Z.eqb_eq in N'. subst n. Z.div_mod_to_equations. lia.
  - apply andb_prop in N' as [M N']. apply Z.eqb_eq in M, N'. subst n.
    Z.div_mod_to_equations. lia.
Qed.

(** X14, witness: five scores of 73. *)
Lemma overall_score_between_witness :
  exists n,
    compute_overall_score
      (mkScores (of_Z 73) (of_Z 73) (of_Z 73) (of_Z 73) (of_Z 73)) = of_Z n
    /\ 73 <= n <= 73.
Proof.
  apply (overall_score_between 73 73 73 73 73 73 73); lia.
Defined.

End CategoryScores.

(* ===================================================================== *)
(** ** The session endpoints *)
(* ===================================================================== *)

Section ServerFacts.
Import Server.

Lemma falsy_false v : falsy v = false <-> exists s, v = Some s /\ s <> "".
Proof.
  unfold falsy. destruct v as [s|].
  - rewrite String.eqb_neq. split; [eauto | intros (s' & [= <-] & H); exact H].
  - split; [discriminate | intros (s' & H & _); discriminate].
Qed.


(** X16.  A request changes no session but the one it addresses. *)
Theorem other_sessions_untouched
    (req : Request) (now : nat -> string) (sessions : Sessions) (k : string) :
  target req <> Some k ->
  snd (handle req now sessions) !! k = sessions !! k.
Proof.
  intros Hk.
  destruct req as [sid h sm|id u|id|id results|id|id u t rp ra rs rb rw];
    cbn [handle target] in *.
  - unfold session_start. destruct (falsy sid) eqn:F; [reflexivity|].
    apply falsy_false in F as (s & -> & _). cbn [from_option Datatypes.id].
    destruct (sessions !! s); [reflexivity|]. cbn [snd].
    apply lookup_insert_ne. congruence.
  - unfold session_navigate. destruct (falsy u); [reflexivity|].
    destruct (sessions !! id); [|reflexivity]. cbn [snd].
    apply lookup_insert_ne. congruence.
  - unfold session_console.
    destruct (sessions !! id); [|reflexivity]. cbn [snd].
    apply lookup_insert_ne. congruence.
  - unfold session_lighthouse.
    destruct (sessions !! id) as [s|]; [|reflexivity].
    destruct (falsy (url s)); [reflexivity|]. cbn [snd].
    apply lookup_insert_ne. congruence.
  - unfold session_close.
    destruct (sessions !! id); [|reflexivity]. cbn [snd].
    apply lookup_delete_ne. congruence.
  - unfold session_comprehensive_analysis. destruct (falsy u); [reflexivity|].
    destruct (sessions !! id); [|reflexivity].
    destruct (Analysis.runComprehensiveSiteAnalysis _ _ _ _ _ _ _);
      [|reflexivity].
    cbn [snd]. apply lookup_insert_ne. congruence.
Qed.

(** X16, witness: navigating session "a" leaves session "b" alone. *)
Lemma other_sessions_untouched_witness :
  snd (handle (Navigate "a" (Some "https://example.org")) (fun _ => "t")
         Derived.two_sessions) !! "b"
  = Derived.two_sessions !! "b".
Proof.
  apply (other_sessions_untouched (Navigate "a" (Some "https://example.org"))).
  cbn [target]. discriminate.
Defined.

Lemma handle_well_kept req now sessions :
  well_kept sessions -> well_kept (snd (handle req now sessions)).
Proof.
  intros W k s.
  destruct req as [sid h sm|id u|id|id results|id|id u t rp ra rs rb rw];
    cbn [handle].
  - unfold session_start. destruct (falsy sid) eqn:F; [apply W|].
    apply falsy_false in F as (i & -> & Hi). cbn [from_option Datatypes.id].
    destruct (sessions !! i); [apply W|]. cbn [snd].
    rewrite lookup_insert_Some. intros [[<- <-]|[_ H]]; [|now apply W].
    cbn. repeat split; try assumption; discriminate.
  - unfold session_navigate. destruct (falsy u) eqn:F; [apply W|].
    apply falsy_false in F as (v & -> & Hv). cbn [from_option Datatypes.id].
    destruct (sessions !! id) as [s0|] eqn:E; [|apply W]. cbn [snd].
    rewrite lookup_insert_Some. intros [[<- <-]|[_ H]]; [|now apply W].
    destruct (W _ _ E) as (H1 & H2 & H3 & H4). cbn.
    repeat split; try assumption. congruence.
  - unfold session_console.
    destruct (sessions !! id) as [s0|] eqn:E; [|apply W]. cbn [snd].
    rewrite lookup_insert_Some. intros [[<- <-]|[_ H]]; [|now apply W].
    destruct (W _ _ E) as (H1 & H2 & H3 & H4). cbn.
    repeat split; assumption.
  - unfold session_lighthouse.
    destruct (sessions !! id) as [s0|] eqn:E; [|apply W].
    destruct (falsy (url s0)); [apply W|]. cbn [snd].
    rewrite lookup_insert_Some. intros [[<- <-]|[_ H]]; [|now apply W].
    destruct (W _ _ E) as (H1 & H2 & H3 & H4). cbn.
    repeat split; assumption.
  - unfold session_close.
    destruct (sessions !! id) as [s0|] eqn:E; [|apply W]. cbn [snd].
    rewrite lookup_delete_Some. intros [_ H]. now apply W.
  - unfold session_comprehensive_analysis. destruct (falsy u); [apply W|].
    destruct (sessions !! id) as [s0|] eqn:E; [|apply W].
    destruct (Analysis.runComprehensiveSiteAnalysis _ _ _ _ _ _ _);
      [|apply W].
    cbn [snd]. rewrite lookup_insert_Some.
    intros [[<- <-]|[_ H]]; [|now apply W].
    destruct (W _ _ E) as (H1 & H2 & H3 & H4). cbn.
    repeat split; assumption.
Qed.

(** X17.  Whatever requests the server has handled since it started, every
    session it keeps is stored under its own id, which is not empty, its
    url is unset or not empty, and its console log is empty: the console
    endpoint can only ever report zero logs. *)
Theorem sessions_well_kept (reqs : list (Request * (nat -> string))) :
  well_kept (serve reqs ∅)
  /\ forall id now,
       fst (handle (GetConsole id) now (serve reqs ∅))
       = failure 404 "Session not found" (Some id) (now 0%nat)
       \/ payload (fst (handle (GetConsole id) now (serve reqs ∅)))
          = console_logs [] 0
              "Console logs require browser-tools-server and Chrome extension running".
Proof.
  assert (W : well_kept (serve reqs ∅)).
  { assert (W0 : well_kept (∅ : Sessions)).
    { intros k s H. rewrite lookup_empty in H. discriminate. }
    revert W0. generalize (∅ : Sessions) as st.
    induction reqs as [|[req now] reqs IH]; intros st W0; [exact W0|].
    cbn [serve]. apply IH. now apply handle_well_kept. }
  split; [exact W|]. intros id now. cbn [handle]. unfold session_console.
  destruct (serve reqs ∅ !! id) as [s|] eqn:E; [right|now left].
  destruct (W _ _ E) as (_ & _ & _ & ->). reflexivity.
Qed.



End ServerFacts.

Section SessionEndpoints.
Import Server.


(** X20.  The Lighthouse endpoint of a session succeeds exactly when the
    session exists and has been navigated; it then answers with the url
    of the session and the five scores, a missing or falsy score counted
    as 0, and stores them in the session. *)
Theorem session_lighthouse_outcome
    (id : string) (results : AdapterScores) (now : nat -> string)
    (sessions : Sessions) :
  (status (fst (session_lighthouse id results now sessions)) = 200
   <-> exists s u, sessions !! id = Some s /\ url s = Some u /\ u <> "")
  /\ (status (fst (session_lighthouse id results now sessions)) = 404
      <-> sessions !! id = None)
  /\ (forall s u,
        sessions !! id = Some s -> url s = Some u -> u <> "" ->
        payload (fst (session_lighthouse id results now sessions))
        = lighthouse_scores u (extract_scores results)
        /\ exists s',
             snd (session_lighthouse id results now sessions) !! id = Some s'
             /\ lighthouseResults s'
                = Some (mkLighthouseResults (extract_scores results) results
                          (now 1%nat))
             /\ url s' = Some u)
  /\ extract_scores (mkAdapterScores None None None None None)
     = mkLighthouseScores (of_Z 0) (of_Z 0) (of_Z 0) (of_Z 0) (of_Z 0).
Proof.
  unfold session_lighthouse.
  destruct (sessions !! id) as [s|] eqn:E.
  - destruct (falsy (url s)) eqn:F; cbn [fst snd status payload].
    + split; [|split; [|split; [|reflexivity]]].
      * split; [discriminate|]. intros (s' & u & [= <-] & Hu & Hne).
        assert (falsy (url s) = false) by (apply falsy_false; eauto).
        congruence.
      * split; discriminate.
      * intros s' u [= <-] Hu Hne.
        assert (falsy (url s) = false) by (apply falsy_false; eauto).
        congruence.
    + apply falsy_false in F as (u & Hu & Hne).
      split; [|split; [|split; [|reflexivity]]].
      * split; [intros _; eauto | reflexivity].
      * split; discriminate.
      * intros s' u' [= <-] Hu' _. rewrite Hu in Hu'. injection Hu' as <-.
        rewrite Hu. cbn [from_option Datatypes.id]. split; [reflexivity|].
        eexists. split; [apply lookup_insert_eq|]. cbn. auto.
  - cbn [fst snd status]. split; [|split; [|split; [|reflexivity]]].
    + split; [discriminate|]. intros (s & u & H & _). discriminate.
    + split; reflexivity.
    + intros s u H. discriminate.
Qed.

(** X21.  The analysis endpoint on an existing session and a given url
    always succeeds, also when every adapter rejects: it answers with the
    analysis [runComprehensiveSiteAnalysis] resolves with and stores it in
    the session, whose other fields, the time of the last activity
    included, stay as they were. *)
Theorem analysis_endpoint_succeeds
    (id u t : string) (s : Session) (now : nat -> string) (sessions : Sessions)
    (rp : Outcome Analysis.PerformanceReportContent)
    (ra : Outcome Analysis.AccessibilityReportContent)
    (rs : Outcome Analysis.SEOReportContent)
    (rb : Outcome Analysis.BestPracticesReportContent)
    (rw : Outcome PWA.AIOptimizedPWAReport) :
  u <> "" -> sessions !! id = Some s ->
  exists an,
    Analysis.runComprehensiveSiteAnalysis u t rp ra rs rb rw = Resolved an
    /\ fst (handle (Analyse id (Some u) t rp ra rs rb rw) now sessions)
       = mkResponse 200 true None None (Some id) (analysis_result an)
           (now 0%nat)
    /\ snd (handle (Analyse id (Some u) t rp ra rs rb rw) now sessions)
       = <[id := mkSession (sessionId s) (headless s) (slowMo s) (url s)
                   (consoleLogs s) (lighthouseResults s) (Some an)
                   (created s) (lastActivity s)]> sessions.
Proof.
  intros Hu Hs.
  destruct (run_resolves u t rp ra rs rb rw) as [an Han].
  exists an. split; [exact Han|].
  cbn [handle from_option Datatypes.id]. unfold session_comprehensive_analysis.
  assert (F : falsy (Some u) = false) by (apply falsy_false; eauto).
  rewrite F, Hs, Han. split; reflexivity.
Qed.

(** X21, witness: all five adapters reject. *)
Lemma analysis_endpoint_succeeds_witness :
  exists an,
    Analysis.runComprehensiveSiteAnalysis "https://example.org" "t1"
      (Rejected "no browser") (Rejected "no browser") (Rejected "no browser")
      (Rejected "no browser") (Rejected "no browser") = Resolved an
    /\ fst (handle (Analyse "a" (Some "https://example.org") "t1"
                      (Rejected "no browser") (Rejected "no browser")
                      (Rejected "no browser") (Rejected "no browser")
                      (Rejected "no browser"))
              (fun _ => "t2") Derived.two_sessions)
       = mkResponse 200 true None None (Some "a") (analysis_result an) "t2"
    /\ snd (handle (Analyse "a" (Some "https://example.org") "t1"
                      (Rejected "no browser") (Rejected "no browser")
                      (Rejected "no browser") (Rejected "no browser")
                      (Rejected "no browser"))
              (fun _ => "t2") Derived.two_sessions)
       = <["a" := mkSession "a" true (of_Z 0) None [] None (Some an) "t0" "t0"]>
           Derived.two_sessions.
Proof.
  apply (analysis_endpoint_succeeds "a" "https://example.org" "t1"
           (mkSession "a" true (of_Z 0) None [] None None "t0" "t0")
           (fun _ => "t2") Derived.two_sessions).
  - discriminate.
  - reflexivity.
Defined.

End SessionEndpoints.
